(** * Seaweed scale-up model: the daily growth-and-harvest engine

    A shallow embedding of [src/scaleup_model.py]: the self-shading
    function, the logistic build-out curve, the per-day loop of
    [SeaweedScaleUpModel.seaweed_growth] and the calibrator
    [SeaweedScaleUpModel.determine_average_productivity].

    Numbers.  The program computes with binary64 floats (Python floats
    and numpy.float64).  They are modelled here as real numbers: the
    rounding of the arithmetic operations is idealised away.  Statements
    that need exact arithmetic (a product divided again by its factor, a
    sum taken apart again) say so; the others use only comparisons,
    assignments and the program's own expressions.  Two things are not
    idealised.  The exponential of [self_shading] underflows to 0.0
    ([math_exp]).  And a division by zero is an outcome of its own
    ([ZeroDivision]): Python raises [ZeroDivisionError] when both
    operands are Python numbers, but goes on with inf or nan and a
    RuntimeWarning when one of them is a numpy.float64 (as the built area
    is once the logistic curve has been added to it); the model stops at
    the division and does not say which.  Day indices and the harvest
    counter are Python ints and are modelled as [nat].

    Effects.  The engine mutates one pandas DataFrame by label
    ([df.loc[current_day, column] = value]) and can stop with an exception
    in the middle of a day.  The body of the loop is written in a small
    monad that threads the row of the current day and the way the day
    ends; the loop collects the rows.  Diagnostics printed by the program are left
    out (and with them the flags [verbose], [calibration_run] and
    [track_max_area], which only guard prints). *)

From Stdlib Require Import Reals Lra Lia List Bool Arith.
From Stdlib Require PrimFloat.
Import ListNotations.
Local Open Scope R_scope.

(** ** Python values, exceptions *)

Inductive exn : Type :=
| AssertionError
| TypeError
| IndexError
| KeyError.

(** How a computation ends: with a value, with an exception, or at a
    division by zero. *)
Inductive result (A : Type) : Type :=
| Ok (a : A)
| Raise (e : exn)
| ZeroDivision.
Arguments Ok {A} a.
Arguments Raise {A} e.
Arguments ZeroDivision {A}.

(** The argument [growth_rate_fraction] is inspected with [isinstance]:
    a float, a list (of floats), or anything else (an int, [None]). *)
Inductive pyval : Type :=
| PyFloat (x : R)
| PyList (l : list R)
| PyInt (z : Z)
| PyNone.

(** Comparisons as the booleans the program branches on. *)
Definition Rleb (a b : R) : bool := if Rle_dec a b then true else false.
Definition Rltb (a b : R) : bool := if Rlt_dec a b then true else false.

(** [a / b] on floats. *)
Definition pydiv (a b : R) : result R :=
  if Req_dec_T b 0 then ZeroDivision else Ok (a / b).

(** Half of the smallest positive double. *)
Definition underflow_bound : R := / 2 ^ 1075.

(** [math.exp] on doubles, for arguments that do not overflow: the
    result rounds to 0.0 when the exponential is at most half of the
    smallest positive double (arguments below about -745.13); above
    that its rounding is idealised away. *)
Definition math_exp (x : R) : R :=
  if Rleb (exp x) underflow_bound then 0 else exp x.

(** ** The pure helpers *)

(** [self_shading(density)]: [assert density > 0], then the piecewise
    attenuation factor.  The argument of the exponential is never
    positive, so that [math.exp] cannot overflow here. *)
Definition self_shading (density : R) : result R :=
  if Rltb 0 density then
    if Rltb density 0.4 then Ok 1
    else Ok (math_exp (- 0.513 * (density - 0.4)))
  else Raise AssertionError.

(** The logistic curve, with the exponential of the reals: the overflow
    and the rounding of [np.exp] are idealised away (in doubles the
    curve saturates at [off] and at [max_L + off]). *)
Definition logistic_curve (x max_L k x0 off : R) : R :=
  max_L / (1 + exp (- k * (x - x0))) + off.

Definition seaweed_farm_area_per_day (day : R) : R :=
  let max_L := 4.15610385e03 in
  let k := 2.83799528e-02 in
  let x0 := 1.57630971e02 in
  let off := -4.10270637e01 in
  logistic_curve day max_L k x0 off.

(** ** The DataFrame *)

Inductive column : Type :=
| col_new_module_area_per_day
| col_actual_growth_rate_multiplicator
| col_harvest_intervall
| col_seaweed_remaining_to_grow
| col_harvest_wet
| col_harvest_wet_with_loss
| col_harvest_for_food
| col_new_area_used
| col_current_seaweed_need
| col_current_area_built
| col_current_area_used
| col_current_seaweed
| col_current_density
| col_cumulative_harvest_for_food.

Definition column_eq_dec (a b : column) : {a = b} + {a <> b}.
Proof. decide equality. Defined.

(** One row of the frame: a cell is [None] while it holds NaN, that is
    until it is written. *)
Definition Row : Type := column -> option R.

Definition empty_row : Row := fun _ => None.

Definition row_set (row : Row) (c : column) (v : R) : Row :=
  fun c' => if column_eq_dec c' c then Some v else row c'.

(** The frame has index [range(days_to_run)]: row [i] is day [i]. *)
Definition DataFrame : Type := list Row.

(** ** The monad of the loop body: the row being written, and how the
    day ends *)

Definition M (A : Type) : Type := Row -> Row * result A.

Definition ret {A} (a : A) : M A := fun row => (row, Ok a).

Definition bind {A B} (m : M A) (f : A -> M B) : M B :=
  fun row =>
    match m row with
    | (row', Ok a) => f a row'
    | (row', Raise e) => (row', Raise e)
    | (row', ZeroDivision) => (row', ZeroDivision)
    end.

Definition raise {A} (e : exn) : M A := fun row => (row, Raise e).

Definition lift {A} (r : result A) : M A := fun row => (row, r).

(** [assert b] *)
Definition assert (b : bool) : M unit :=
  if b then ret tt else raise AssertionError.

(** [df.loc[current_day, c] = v] *)
Definition df_loc (c : column) (v : R) : M unit :=
  fun row => (row_set row c v, Ok tt).

Declare Scope py_scope.
Delimit Scope py_scope with py.
Notation "x <- m ;; k" := (bind m (fun x => k))
  (at level 61, m at next level, right associativity) : py_scope.
Notation "m ;; k" := (bind m (fun _ => k))
  (at level 61, right associativity) : py_scope.
Local Open Scope py_scope.

(** ** The engine *)

(** The arguments of [seaweed_growth], and [self.harvest_loss]. *)
Record Config : Type := {
  harvest_loss : R;
  initial_seaweed : R;
  initial_area_built : R;
  initial_area_used : R;
  new_module_area_per_day : R;
  min_density : R;
  max_density : R;
  max_area : R;
  optimal_growth_rate : R;
  growth_rate_fraction : pyval;
  initial_lag : R;
  percent_usable_for_growth : R;
  days_to_run : nat
}.

(** The local variables that live across iterations.  The parameter
    [new_module_area_per_day] is itself reassigned inside the loop, so it
    is part of the state ([module_area]). *)
Record State : Type := {
  module_area : R;
  current_area_built : R;
  current_area_used : R;
  current_seaweed : R;
  current_density : R;
  cumulative_harvest_for_food : R;
  current_seaweed_need : R;
  harvest_intervall : nat
}.

Section Engine.

Variable cfg : Config.

(** Lines 106-122: the builder. *)
Definition build_area (current_day : nat) (module_area' built : R) : M R :=
  let growth_area_per_day :=
    module_area' * (percent_usable_for_growth cfg / 100) in
  if Rltb (initial_lag cfg) (INR current_day) then
    if Rltb built (max_area cfg) then
      df_loc col_new_module_area_per_day module_area' ;;
      let built' := built + growth_area_per_day in
      ret (if Rltb (max_area cfg) built' then max_area cfg else built')
    else
      df_loc col_new_module_area_per_day 0 ;;
      ret built
  else
    df_loc col_new_module_area_per_day 0 ;;
    ret built.

(** Lines 129-151: the growth multiplier, by the shape of
    [growth_rate_fraction]. *)
Definition in_unit_interval (x : R) : bool := Rleb x 1 && Rleb 0 x.

Definition growth_multiplier (current_day : nat) (self_shading_factor : R)
  : M R :=
  match growth_rate_fraction cfg with
  | PyFloat f =>
      assert (in_unit_interval self_shading_factor) ;;
      ret (1 + (optimal_growth_rate cfg * f * self_shading_factor) / 100)
  | PyList l =>
      assert (forallb in_unit_interval l) ;;
      match nth_error l current_day with
      | Some f =>
          ret (1 + (optimal_growth_rate cfg * f * self_shading_factor) / 100)
      | None => raise IndexError
      end
  | _ => raise TypeError
  end.

(** Lines 159-202: the harvest.  It receives the built area, the used
    area and the biomass after growth, the running food total and the
    counter, and returns used area, biomass, food total and need. *)
Definition harvest (built used seaweed cumulative : R) (interval : nat)
  : M (R * R * R * R) :=
  df_loc col_harvest_intervall (INR interval) ;;
  let seaweed_remaining_to_grow := used * min_density cfg in
  df_loc col_seaweed_remaining_to_grow seaweed_remaining_to_grow ;;
  let harvest_wet := seaweed - seaweed_remaining_to_grow in
  df_loc col_harvest_wet harvest_wet ;;
  let loss := harvest_loss cfg / 100 in
  assert (in_unit_interval loss) ;;
  let harvest_wet_with_loss := harvest_wet * (1 - loss) in
  df_loc col_harvest_wet_with_loss harvest_wet_with_loss ;;
  let need := (built - used) * min_density cfg in
  if Rltb harvest_wet_with_loss need then
    new_area_used <- lift (pydiv need (min_density cfg)) ;;
    let used' := used + new_area_used in
    let seaweed' := seaweed_remaining_to_grow + harvest_wet_with_loss in
    df_loc col_new_area_used new_area_used ;;
    ret (used', seaweed', cumulative, need)
  else
    let harvest_for_food := harvest_wet_with_loss - need in
    df_loc col_harvest_for_food harvest_for_food ;;
    let cumulative' := cumulative + harvest_for_food in
    new_area_used <- lift (pydiv need (min_density cfg)) ;;
    let used' := used + new_area_used in
    let seaweed' := used' * min_density cfg in
    df_loc col_new_area_used new_area_used ;;
    ret (used', seaweed', cumulative', need).

(** Lines 97-212: one iteration of [for current_day in range(days_to_run)]. *)
Definition day_body (current_day : nat) (st : State) : M State :=
  let module_area' :=
    if Rltb 0 (module_area st)
    then seaweed_farm_area_per_day (INR current_day)
    else module_area st in
  built <- build_area current_day module_area' (current_area_built st) ;;
  self_shading_factor <- lift (self_shading (current_density st / 1000)) ;;
  actual_growth_rate <- growth_multiplier current_day self_shading_factor ;;
  df_loc col_actual_growth_rate_multiplicator actual_growth_rate ;;
  assert (Rleb actual_growth_rate 2 && Rleb 0 actual_growth_rate) ;;
  let seaweed := current_seaweed st * actual_growth_rate in
  density <- lift (pydiv seaweed (current_area_used st)) ;;
  h <- (if Rleb (max_density cfg) density then
          r <- harvest built (current_area_used st) seaweed
                 (cumulative_harvest_for_food st) (harvest_intervall st) ;;
          ret (r, O)
        else
          ret (current_area_used st, seaweed,
               cumulative_harvest_for_food st, current_seaweed_need st,
               harvest_intervall st)) ;;
  let '(used, seaweed', cumulative, need, interval) := h in
  let interval' := S interval in
  df_loc col_current_seaweed_need need ;;
  df_loc col_current_area_built built ;;
  df_loc col_current_area_used used ;;
  df_loc col_current_seaweed seaweed' ;;
  df_loc col_current_density density ;;
  df_loc col_cumulative_harvest_for_food cumulative ;;
  ret {| module_area := module_area';
         current_area_built := built;
         current_area_used := used;
         current_seaweed := seaweed';
         current_density := density;
         cumulative_harvest_for_food := cumulative;
         current_seaweed_need := need;
         harvest_intervall := interval' |}.

(** The loop over the remaining days.  A day that raises leaves its row
    as far as it was written; the rows of the days after it stay empty.
    At a division by zero the model stops in the same way: the frame is
    shown as it stands at the division, and what the program writes
    after it, when it goes on with nan, is not modelled. *)
Fixpoint loop (days : list nat) (st : State) : DataFrame * result State :=
  match days with
  | [] => ([], Ok st)
  | current_day :: days' =>
      match day_body current_day st empty_row with
      | (row, Ok st') =>
          let (rows, r) := loop days' st' in (row :: rows, r)
      | (row, Raise e) =>
          (row :: map (fun _ => empty_row) days', Raise e)
      | (row, ZeroDivision) =>
          (row :: map (fun _ => empty_row) days', ZeroDivision)
      end
  end.

(** Lines 84-95: initialisation.  The first division already divides
    by the used area. *)
Definition initial_state : result State :=
  match pydiv (initial_seaweed cfg) (initial_area_used cfg) with
  | Ok density =>
      Ok {| module_area := new_module_area_per_day cfg;
            current_area_built := initial_area_built cfg;
            current_area_used := initial_area_used cfg;
            current_seaweed := initial_seaweed cfg;
            current_density := density;
            cumulative_harvest_for_food := 0;
            current_seaweed_need := 0;
            harvest_intervall := O |}
  | Raise e => Raise e
  | ZeroDivision => ZeroDivision
  end.

(** The run, with the frame as it stands when the function is left
    (before the frame is created there are no rows). *)
Definition seaweed_growth_frame : DataFrame * result State :=
  match initial_state with
  | Ok st => loop (seq 0 (days_to_run cfg)) st
  | Raise e => ([], Raise e)
  | ZeroDivision => ([], ZeroDivision)
  end.

(** [seaweed_growth]: the frame, the exception, or the division by
    zero. *)
Definition seaweed_growth : result DataFrame :=
  match seaweed_growth_frame with
  | (df, Ok _) => Ok df
  | (_, Raise e) => Raise e
  | (_, ZeroDivision) => ZeroDivision
  end.

End Engine.

(** The state in which day [i] starts: the days before it all ran to
    their end. *)
Definition state_before (cfg : Config) (i : nat) : result State :=
  match initial_state cfg with
  | Ok st => snd (loop cfg (seq 0 i) st)
  | Raise e => Raise e
  | ZeroDivision => ZeroDivision
  end.

(** ** The calibrator *)

(** [df[c]]: a column exists once one of its cells has been written;
    otherwise the lookup raises [KeyError]. *)
Definition is_valid (x : option R) : bool :=
  match x with Some _ => true | None => false end.

Definition df_getitem (df : DataFrame) (c : column)
  : result (list (option R)) :=
  if existsb (fun row => is_valid (row c)) df
  then Ok (map (fun row => row c) df)
  else Raise KeyError.

(** The value at [series.last_valid_index()]: the last cell that is not
    NaN, if there is one. *)
Fixpoint last_valid (series : list (option R)) : option R :=
  match series with
  | [] => None
  | x :: series' =>
      match last_valid series' with
      | Some v => Some v
      | None => x
      end
  end.

(** [df.loc[df[c].last_valid_index(), c]]; the label [None] is not in
    the index, hence [KeyError]. *)
Definition loc_last_valid (df : DataFrame) (c : column) : result R :=
  match df_getitem df c with
  | Ok series =>
      match last_valid series with
      | Some v => Ok v
      | None => Raise KeyError
      end
  | Raise e => Raise e
  | ZeroDivision => ZeroDivision
  end.

(** Lines 250-259: [try: ... except KeyError: ...]. *)
Definition stable_values (df : DataFrame) : result (option R * option R) :=
  let attempt :=
    match loc_last_valid df col_harvest_intervall with
    | Ok stable_harvest_intervall =>
        match loc_last_valid df col_harvest_for_food with
        | Ok stable_harvest_for_food =>
            Ok (Some stable_harvest_intervall, Some stable_harvest_for_food)
        | Raise e => Raise e
        | ZeroDivision => ZeroDivision
        end
    | Raise e => Raise e
    | ZeroDivision => ZeroDivision
    end in
  match attempt with
  | Raise KeyError => Ok (None, None)
  | other => other
  end.

(** The fixed unit-area configuration of the calibration run. *)
Definition calibration_config (self_harvest_loss : R)
  (growth_rate_fraction' : pyval) (days_to_run' : nat)
  (percent_usable_for_growth' optimal_growth_rate' : R) : Config :=
  {| harvest_loss := self_harvest_loss;
     initial_seaweed := 1;
     initial_area_built := 1;
     initial_area_used := 1;
     new_module_area_per_day := 0;
     min_density := 1200;
     max_density := 3600;
     max_area := 1;
     optimal_growth_rate := optimal_growth_rate';
     growth_rate_fraction := growth_rate_fraction';
     initial_lag := 0;
     percent_usable_for_growth := percent_usable_for_growth';
     days_to_run := days_to_run' |}.

(** [determine_average_productivity]: [Ok None] is Python's [None].  The
    two stable values come out of the frame as numpy floats, whose
    quotient does not raise. *)
Definition determine_average_productivity (self_harvest_loss : R)
  (growth_rate_fraction' : pyval) (days_to_run' : nat)
  (percent_usable_for_growth' optimal_growth_rate' : R)
  : result (option R) :=
  match seaweed_growth
          (calibration_config self_harvest_loss growth_rate_fraction'
             days_to_run' percent_usable_for_growth' optimal_growth_rate')
  with
  | Ok harvest_df =>
      match stable_values harvest_df with
      | Ok (Some stable_harvest_intervall, Some stable_harvest_for_food) =>
          Ok (Some (stable_harvest_for_food / stable_harvest_intervall))
      | Ok _ => Ok None
      | Raise e => Raise e
      | ZeroDivision => ZeroDivision
      end
  | Raise e => Raise e
  | ZeroDivision => ZeroDivision
  end.

(** ** The harvest area in binary64

    The area a harvest activates (lines 185-190 and 197-199) and the
    used area it leaves, on binary64 floats: for the remark on rounding
    that goes with the used area. *)

Module Binary64.

Import PrimFloat.

Definition new_area_used (built used dmin : float) : float :=
  let current_seaweed_need := mul (sub built used) dmin in
  div current_seaweed_need dmin.

Definition area_used_after_harvest (built used dmin : float) : float :=
  add used (new_area_used built used dmin).

(** The doubles nearest to 1.9 and to 0.1, and 1200. *)
Definition built_1_9 : float := 0x1.e666666666666p+0%float.
Definition used_0_1 : float := 0x1.999999999999ap-4%float.
Definition dmin_1200 : float := 1200%float.

End Binary64.

(** ** Concrete runs

    Small configurations on which the engine is run below.  Their
    densities stay under 400 t/km2 (0.4 kg/m2), where self-shading is 1.
    Except for [cfg_clamp], which builds along the logistic curve, every
    number they produce is exact in binary floating point as well. *)

Definition run_config (loss seaweed built used module_rate dmin dmax amax
  : R) (fraction : pyval) (days : nat) : Config :=
  {| harvest_loss := loss;
     initial_seaweed := seaweed;
     initial_area_built := built;
     initial_area_used := used;
     new_module_area_per_day := module_rate;
     min_density := dmin;
     max_density := dmax;
     max_area := amax;
     optimal_growth_rate := 5;
     growth_rate_fraction := fraction;
     initial_lag := 0;
     percent_usable_for_growth := 100;
     days_to_run := days |}.

(** Two days on a fixed square kilometre that starts above
    [max_density], with no growth: the harvest fires on day 0. *)
Definition cfg_dense_start : Config :=
  run_config 0 40 1 1 0 12 36 1 (PyFloat 0) 2.

(** One day; four square kilometres are built and one is used, so the
    harvest of day 0 cannot seed all of them. *)
Definition cfg_unstocked : Config :=
  run_config 0 36 4 1 0 12 36 4 (PyFloat 0) 1.

(** The growth-rate fraction passed as the int [1]. *)
Definition cfg_int_fraction : Config :=
  run_config 0 1 1 1 0 1200 3600 1 (PyInt 1) 1.

(** A negative constant build rate. *)
Definition cfg_unbuild : Config :=
  run_config 0 1 1 1 (-1) 1200 3600 10 (PyFloat 0) 2.

(** A series of one value for a run of two days. *)
Definition cfg_short_series : Config :=
  run_config 0 1 1 1 0 1200 3600 1 (PyList [0]) 2.

(** Building along the logistic curve towards a maximum half a square
    kilometre away. *)
Definition cfg_clamp : Config :=
  run_config 0 100 100 100 100 1200 3600 100.5 (PyFloat 0) 3.

(** Two square kilometres built, one used, and a harvest on day 0 that
    is large enough to seed the second one. *)
Definition cfg_surplus : Config :=
  run_config 0 60 2 1 0 12 36 2 (PyFloat 0) 1.

(** No growth, and a start below [max_density]. *)
Definition cfg_idle : Config :=
  run_config 0 10 1 1 0 12 36 1 (PyFloat 0) 2.

(** ** More concrete runs *)

(** Five days on a fixed square kilometre with the biomass doubling
    every day: harvests on days 1 and 3. *)
Definition cfg_doubling : Config :=
  {| harvest_loss := 0;
     initial_seaweed := 10;
     initial_area_built := 1;
     initial_area_used := 1;
     new_module_area_per_day := 0;
     min_density := 12;
     max_density := 36;
     max_area := 1;
     optimal_growth_rate := 100;
     growth_rate_fraction := PyFloat 1;
     initial_lag := 0;
     percent_usable_for_growth := 100;
     days_to_run := 5 |}.

(** A fraction of 40 with a rate of 5 %: the multiplier would be 3. *)
Definition cfg_overgrowth : Config :=
  run_config 0 1 1 1 0 1200 3600 1 (PyFloat 40) 2.


(** A series of one value for a run of two days, with a growth rate of
    300 %: the multiplier of day 0 is 4. *)
Definition cfg_series_overgrowth : Config :=
  {| harvest_loss := 0;
     initial_seaweed := 1;
     initial_area_built := 1;
     initial_area_used := 1;
     new_module_area_per_day := 0;
     min_density := 1200;
     max_density := 3600;
     max_area := 1;
     optimal_growth_rate := 300;
     growth_rate_fraction := PyList [1];
     initial_lag := 0;
     percent_usable_for_growth := 100;
     days_to_run := 2 |}.


(** ** Basic facts: comparisons, division, the monad *)

Lemma Rleb_true_iff (a b : R) : Rleb a b = true <-> a <= b.
Proof. unfold Rleb. destruct (Rle_dec a b); split; intros; try lra; discriminate. Qed.

Lemma Rleb_false_iff (a b : R) : Rleb a b = false <-> b < a.
Proof. unfold Rleb. destruct (Rle_dec a b); split; intros; try lra; discriminate. Qed.

Lemma Rltb_true_iff (a b : R) : Rltb a b = true <-> a < b.
Proof. unfold Rltb. destruct (Rlt_dec a b); split; intros; try lra; discriminate. Qed.

Lemma Rltb_false_iff (a b : R) : Rltb a b = false <-> b <= a.
Proof. unfold Rltb. destruct (Rlt_dec a b); split; intros; try lra; discriminate. Qed.

Lemma Rleb_true (a b : R) : a <= b -> Rleb a b = true.
Proof. apply Rleb_true_iff. Qed.

Lemma Rleb_false (a b : R) : b < a -> Rleb a b = false.
Proof. apply Rleb_false_iff. Qed.

Lemma Rltb_true (a b : R) : a < b -> Rltb a b = true.
Proof. apply Rltb_true_iff. Qed.

Lemma Rltb_false (a b : R) : b <= a -> Rltb a b = false.
Proof. apply Rltb_false_iff. Qed.

Lemma pydiv_ok (a b : R) : b <> 0 -> pydiv a b = Ok (a / b).
Proof. intros Hb. unfold pydiv. destruct (Req_dec_T b 0); [contradiction | reflexivity]. Qed.

Lemma pydiv_zero (a : R) : pydiv a 0 = ZeroDivision.
Proof. unfold pydiv. destruct (Req_dec_T 0 0); [reflexivity | contradiction]. Qed.

Lemma pydiv_inv (a b v : R) : pydiv a b = Ok v -> b <> 0 /\ v = a / b.
Proof.
  unfold pydiv. destruct (Req_dec_T b 0); intros H; inversion H. now split.
Qed.

Lemma pydiv_never_raises (a b : R) (e : exn) : pydiv a b = Raise e -> False.
Proof. unfold pydiv. destruct (Req_dec_T b 0); discriminate. Qed.

Lemma pydiv_zero_inv (a b : R) : pydiv a b = ZeroDivision -> b = 0.
Proof.
  unfold pydiv. destruct (Req_dec_T b 0); [trivial | discriminate].
Qed.

Lemma in_unit_interval_iff (x : R) : in_unit_interval x = true <-> 0 <= x <= 1.
Proof.
  unfold in_unit_interval. rewrite andb_true_iff, !Rleb_true_iff. tauto.
Qed.

(** ** C4: self-shading *)

Lemma exp_nonpos_range (x : R) : x <= 0 -> 0 < exp x <= 1.
Proof.
  intros Hx. split; [apply exp_pos |].
  destruct (Req_dec x 0) as [-> | Hne]; [rewrite exp_0; lra |].
  rewrite <- exp_0. left. apply exp_increasing. lra.
Qed.

Lemma exp_monotone (x y : R) : x <= y -> exp x <= exp y.
Proof.
  intros H. destruct (Req_dec x y) as [-> | Hne]; [lra |].
  left. apply exp_increasing. lra.
Qed.

Lemma exp_double_step : 2 <= exp 0.9.
Proof.
  pose proof (exp_ineq1_le 0.45) as H.
  replace 0.9 with (0.45 + 0.45) by lra. rewrite exp_plus. nra.
Qed.

Lemma pow2_le_exp (n : nat) : 2 ^ n <= exp (0.9 * INR n).
Proof.
  induction n as [| n IH].
  - simpl. rewrite Rmult_0_r, exp_0. lra.
  - rewrite S_INR.
    replace (0.9 * (INR n + 1)) with (0.9 * INR n + 0.9) by ring.
    rewrite exp_plus. cbn [pow].
    pose proof exp_double_step. pose proof (pow_lt 2 n ltac:(lra)). nra.
Qed.

Lemma underflow_bound_small : 0 < underflow_bound < / 9.
Proof.
  unfold underflow_bound.
  assert (H : 2 ^ 4 <= 2 ^ 1075) by (apply Rle_pow; [lra | lia]).
  assert (H4 : 2 ^ 4 = 16) by (simpl; lra).
  rewrite H4 in H.
  split.
  - apply Rinv_0_lt_compat. lra.
  - apply Rinv_lt_contravar; [| lra].
    apply Rmult_lt_0_compat; lra.
Qed.

(** The exponential is at most half of the smallest positive double from
    -968 down (the exact threshold is near -745.13). *)
Lemma exp_underflow (x : R) : x <= - 968 -> exp x <= underflow_bound.
Proof.
  intros Hx. unfold underflow_bound.
  assert (H : 2 ^ 1075 <= exp (- x)).
  { eapply Rle_trans; [apply pow2_le_exp |].
    apply exp_monotone. rewrite INR_IZR_INZ.
    change (Z.of_nat 1075) with 1075%Z. lra. }
  rewrite <- (Ropp_involutive x), exp_Ropp.
  apply Rinv_le_contravar; [apply pow_lt; lra | exact H].
Qed.

Lemma math_exp_exact (x : R) : underflow_bound < exp x -> math_exp x = exp x.
Proof. intros H. unfold math_exp. now rewrite Rleb_false. Qed.

Lemma math_exp_underflow (x : R) : exp x <= underflow_bound -> math_exp x = 0.
Proof. intros H. unfold math_exp. now rewrite Rleb_true. Qed.

Lemma math_exp_cases (x : R) :
  (exp x <= underflow_bound /\ math_exp x = 0) \/
  (underflow_bound < exp x /\ math_exp x = exp x).
Proof.
  destruct (Rle_dec (exp x) underflow_bound) as [H | H].
  - left. split; [exact H | now apply math_exp_underflow].
  - right. split; [lra | apply math_exp_exact; lra].
Qed.

Lemma math_exp_range (x : R) : x <= 0 -> 0 <= math_exp x <= 1.
Proof.
  intros Hx. pose proof (exp_nonpos_range x Hx).
  destruct (math_exp_cases x) as [[_ ->] | [_ ->]]; lra.
Qed.

Lemma math_exp_monotone (x y : R) : x <= y -> math_exp x <= math_exp y.
Proof.
  intros Hxy. pose proof (exp_monotone x y Hxy).
  pose proof (exp_pos y). pose proof underflow_bound_small.
  destruct (math_exp_cases x) as [[Hx ->] | [Hx ->]];
    destruct (math_exp_cases y) as [[Hy ->] | [Hy ->]]; lra.
Qed.

Arguments math_exp x : simpl never.

Lemma self_shading_nonpos (d : R) : d <= 0 -> self_shading d = Raise AssertionError.
Proof. intros H. unfold self_shading. now rewrite Rltb_false. Qed.

Lemma self_shading_low (d : R) : 0 < d < 0.4 -> self_shading d = Ok 1.
Proof. intros [H0 H1]. unfold self_shading. now rewrite !Rltb_true. Qed.

Lemma self_shading_high (d : R) :
  0.4 <= d -> self_shading d = Ok (math_exp (- 0.513 * (d - 0.4))).
Proof.
  intros H. unfold self_shading.
  rewrite Rltb_true by lra. now rewrite Rltb_false.
Qed.

(** Whenever the assertion passes the factor lies in [0, 1]. *)
Lemma self_shading_range (d v : R) : self_shading d = Ok v -> 0 < d /\ 0 <= v <= 1.
Proof.
  unfold self_shading. destruct (Rltb 0 d) eqn:Hd; [| discriminate].
  apply Rltb_true_iff in Hd.
  destruct (Rltb d 0.4) eqn:Hlow; intros H; inversion H; subst.
  - lra.
  - apply Rltb_false_iff in Hlow. split; [assumption |].
    apply math_exp_range. lra.
Qed.

Lemma self_shading_never_divides (d : R) : self_shading d <> ZeroDivision.
Proof.
  unfold self_shading.
  destruct (Rltb 0 d); [destruct (Rltb d 0.4) |]; discriminate.
Qed.

Lemma self_shading_underflow (d : R) : 2000 <= d -> self_shading d = Ok 0.
Proof.
  intros H. rewrite self_shading_high by lra.
  rewrite math_exp_underflow; [reflexivity |].
  apply exp_underflow. lra.
Qed.

Lemma self_shading_monotone (d1 d2 v1 v2 : R) :
  d1 <= d2 -> self_shading d1 = Ok v1 -> self_shading d2 = Ok v2 -> v2 <= v1.
Proof.
  intros H12 H1 H2.
  pose proof (self_shading_range d1 v1 H1) as (Hp1 & _ & Hle1).
  pose proof (self_shading_range d2 v2 H2) as (Hp2 & Hpos2 & Hle2).
  destruct (Rlt_dec d1 0.4) as [Hlow | Hhigh].
  - rewrite self_shading_low in H1 by lra. inversion H1; subst. exact Hle2.
  - rewrite self_shading_high in H1, H2 by lra.
    inversion H1; inversion H2; subst.
    apply math_exp_monotone. lra.
Qed.

(** C4, as amended.  [self_shading] raises its assertion (the spec's
    DomainError) on every non-positive density, returns exactly 1 on
    (0, 0.4), and from 0.4 on returns
    [math.exp(-0.513 * (density - 0.4))], a value of [0, 1].  From 0.4
    on the factor does not increase as the density grows; it does not
    strictly decrease: the exponential underflows, and every density
    from 2000 on gives 0.0. *)
Theorem self_shading_spec :
  (forall d, d <= 0 -> self_shading d = Raise AssertionError) /\
  (forall d, 0 < d < 0.4 -> self_shading d = Ok 1) /\
  (forall d, 0.4 <= d ->
     self_shading d = Ok (math_exp (- 0.513 * (d - 0.4))) /\
     0 <= math_exp (- 0.513 * (d - 0.4)) <= 1) /\
  (forall d1 d2, 0.4 <= d1 -> d1 <= d2 ->
     exists v1 v2,
       self_shading d1 = Ok v1 /\ self_shading d2 = Ok v2 /\ v2 <= v1) /\
  (forall d, 2000 <= d -> self_shading d = Ok 0).
Proof.
  split; [exact self_shading_nonpos |].
  split; [exact self_shading_low |].
  split; [| split; [| exact self_shading_underflow]].
  - intros d H. split; [now apply self_shading_high |].
    apply math_exp_range. lra.
  - intros d1 d2 H1 H12.
    exists (math_exp (- 0.513 * (d1 - 0.4))), (math_exp (- 0.513 * (d2 - 0.4))).
    split; [apply self_shading_high; lra |].
    split; [apply self_shading_high; lra |].
    apply math_exp_monotone. lra.
Qed.

Lemma self_shading_spec_witness :
  self_shading (-1) = Raise AssertionError /\
  self_shading 0.2 = Ok 1 /\
  (self_shading 1 = Ok (math_exp (- 0.513 * (1 - 0.4))) /\
   0 <= math_exp (- 0.513 * (1 - 0.4)) <= 1) /\
  (exists v1 v2, self_shading 1 = Ok v1 /\ self_shading 2 = Ok v2 /\ v2 <= v1) /\
  self_shading 2500 = Ok 0.
Proof.
  destruct self_shading_spec as (Hneg & Hlow & Hhigh & Hmono & Hzero).
  split; [apply Hneg; lra |].
  split; [apply Hlow; lra |].
  split; [apply Hhigh; lra |].
  split; [apply Hmono; lra |].
  apply Hzero; lra.
Defined.

(** C4, the claim as stated fails: at the densities 2000 and 3000 the
    factor is 0.0 both times, so that it is not strictly decreasing
    from 0.4 on. *)
Theorem self_shading_spec_counterexample :
  0.4 <= 2000 /\ 2000 < 3000 /\
  self_shading 2000 = Ok 0 /\ self_shading 3000 = Ok 0 /\
  ~ (exists v1 v2,
       self_shading 2000 = Ok v1 /\ self_shading 3000 = Ok v2 /\ v2 < v1).
Proof.
  assert (H1 : self_shading 2000 = Ok 0) by (apply self_shading_underflow; lra).
  assert (H2 : self_shading 3000 = Ok 0) by (apply self_shading_underflow; lra).
  repeat split; try lra; try assumption.
  intros (v1 & v2 & Hv1 & Hv2 & Hlt).
  rewrite H1 in Hv1. rewrite H2 in Hv2.
  inversion Hv1; inversion Hv2; subst. lra.
Qed.

(** ** The loop: rows and states *)

Section Trace.

Variable cfg : Config.

Lemma loop_seq_S (a n : nat) (st : State) :
  snd (loop cfg (seq a (S n)) st) =
  match snd (loop cfg (seq a n) st) with
  | Ok st' => snd (day_body cfg (a + n) st' empty_row)
  | Raise e => Raise e
  | ZeroDivision => ZeroDivision
  end.
Proof.
  revert a st. induction n as [| n IH]; intros a st.
  - cbn [seq loop snd]. rewrite Nat.add_0_r.
    destruct (day_body cfg a st empty_row) as [row [st' | e |]]; reflexivity.
  - change (seq a (S (S n))) with (a :: seq (S a) (S n)).
    change (seq a (S n)) with (a :: seq (S a) n).
    cbn [loop].
    destruct (day_body cfg a st empty_row) as [row [st' | e |]];
      [| reflexivity | reflexivity].
    specialize (IH (S a) st').
    destruct (loop cfg (seq (S a) (S n)) st') as [rows r].
    destruct (loop cfg (seq (S a) n) st') as [rows0 r0].
    cbn [snd] in *. rewrite IH.
    replace (a + S n)%nat with (S a + n)%nat by lia. reflexivity.
Qed.

Lemma loop_nth (n a i : nat) (st : State) (row : Row) :
  nth_error (fst (loop cfg (seq a n) st)) i = Some row ->
  (i < n)%nat /\
  match snd (loop cfg (seq a i) st) with
  | Ok st_i => row = fst (day_body cfg (a + i) st_i empty_row)
  | _ => row = empty_row
  end.
Proof.
  revert a i st. induction n as [| n IH]; intros a i st H.
  - destruct i; discriminate H.
  - cbn [seq loop] in H.
    destruct (day_body cfg a st empty_row) as [row0 [st' | e |]] eqn:Hday.
    + destruct (loop cfg (seq (S a) n) st') as [rows r] eqn:Hloop.
      destruct i as [| i]; cbn [fst nth_error] in H.
      * inversion H; subst. split; [lia |].
        cbn. rewrite Nat.add_0_r, Hday. reflexivity.
      * assert (H' : nth_error (fst (loop cfg (seq (S a) n) st')) i = Some row)
          by (rewrite Hloop; exact H).
        apply IH in H'. destruct H' as [Hlt H'].
        split; [lia |].
        cbn [seq loop]. rewrite Hday.
        destruct (loop cfg (seq (S a) i) st') as [rows1 r1].
        cbn [snd] in *.
        replace (a + S i)%nat with (S a + i)%nat by lia. exact H'.
    + destruct i as [| i]; cbn [fst nth_error] in H.
      * inversion H; subst. split; [lia |].
        cbn. rewrite Nat.add_0_r, Hday. reflexivity.
      * assert (Hlen : (i < n)%nat).
        { assert (Hs : nth_error (map (fun _ : nat => empty_row) (seq (S a) n)) i
                       <> None) by (rewrite H; discriminate).
          apply nth_error_Some in Hs.
          rewrite length_map, length_seq in Hs. exact Hs. }
        split; [lia |].
        cbn [seq loop]. rewrite Hday. cbn [snd].
        apply nth_error_In, in_map_iff in H.
        destruct H as (x & Hx & _). now symmetry.
    + destruct i as [| i]; cbn [fst nth_error] in H.
      * inversion H; subst. split; [lia |].
        cbn. rewrite Nat.add_0_r, Hday. reflexivity.
      * assert (Hlen : (i < n)%nat).
        { assert (Hs : nth_error (map (fun _ : nat => empty_row) (seq (S a) n)) i
                       <> None) by (rewrite H; discriminate).
          apply nth_error_Some in Hs.
          rewrite length_map, length_seq in Hs. exact Hs. }
        split; [lia |].
        cbn [seq loop]. rewrite Hday. cbn [snd].
        apply nth_error_In, in_map_iff in H.
        destruct H as (x & Hx & _). now symmetry.
Qed.

Lemma loop_length (days : list nat) (st : State) :
  length (fst (loop cfg days st)) = length days.
Proof.
  revert st. induction days as [| d days IH]; intros st; [reflexivity |].
  cbn [loop]. destruct (day_body cfg d st empty_row) as [row [st' | e |]].
  - specialize (IH st'). destruct (loop cfg days st') as [rows r].
    cbn in *. now rewrite IH.
  - cbn. now rewrite length_map.
  - cbn. now rewrite length_map.
Qed.

Lemma state_before_0 : state_before cfg 0 = initial_state cfg.
Proof. unfold state_before. destruct (initial_state cfg); reflexivity. Qed.

Lemma state_before_S (i : nat) :
  state_before cfg (S i) =
  match state_before cfg i with
  | Ok st => snd (day_body cfg i st empty_row)
  | Raise e => Raise e
  | ZeroDivision => ZeroDivision
  end.
Proof.
  unfold state_before.
  destruct (initial_state cfg) as [st0 | e |]; [| reflexivity | reflexivity].
  apply (loop_seq_S 0 i st0).
Qed.

(** A state reached after [S i] days was reached by a full day [i]. *)
Lemma state_before_S_inv (i : nat) (st' : State) :
  state_before cfg (S i) = Ok st' ->
  exists st row,
    state_before cfg i = Ok st /\ day_body cfg i st empty_row = (row, Ok st').
Proof.
  rewrite state_before_S.
  destruct (state_before cfg i) as [st | e |]; [| discriminate | discriminate].
  intros H. exists st, (fst (day_body cfg i st empty_row)). split; [reflexivity |].
  destruct (day_body cfg i st empty_row) as [row r]. cbn in *. now subst.
Qed.

(** The run ends in the state (or with the exception) of the last day. *)
Lemma frame_outcome :
  snd (seaweed_growth_frame cfg) = state_before cfg (days_to_run cfg).
Proof.
  unfold seaweed_growth_frame, state_before.
  destruct (initial_state cfg); reflexivity.
Qed.

Lemma frame_length (st0 : State) :
  initial_state cfg = Ok st0 ->
  length (fst (seaweed_growth_frame cfg)) = days_to_run cfg.
Proof.
  intros H. unfold seaweed_growth_frame. rewrite H.
  now rewrite loop_length, length_seq.
Qed.

(** Row [i] of the frame is what day [i] wrote, started from the state
    the earlier days left; it is empty when an earlier day raised. *)
Lemma frame_row (i : nat) (row : Row) :
  nth_error (fst (seaweed_growth_frame cfg)) i = Some row ->
  (i < days_to_run cfg)%nat /\
  match state_before cfg i with
  | Ok st => row = fst (day_body cfg i st empty_row)
  | _ => row = empty_row
  end.
Proof.
  unfold seaweed_growth_frame, state_before.
  destruct (initial_state cfg) as [st0 | e |].
  - intros H. apply loop_nth in H. exact H.
  - destruct i; discriminate.
  - destruct i; discriminate.
Qed.

(** A row with a cell in it belongs to a day that was started. *)
Lemma frame_row_started (i : nat) (row : Row) (c : column) (v : R) :
  nth_error (fst (seaweed_growth_frame cfg)) i = Some row ->
  row c = Some v ->
  exists st, state_before cfg i = Ok st /\
             row = fst (day_body cfg i st empty_row).
Proof.
  intros Hrow Hc. apply frame_row in Hrow. destruct Hrow as [_ Hrow].
  destruct (state_before cfg i) as [st | e |].
  - now exists st.
  - subst row. discriminate Hc.
  - subst row. discriminate Hc.
Qed.

(** Invariants of the states the loop reaches. *)
Lemma reachable_ind (P : State -> Prop) :
  (forall st, initial_state cfg = Ok st -> P st) ->
  (forall d st row st',
      P st -> day_body cfg d st empty_row = (row, Ok st') -> P st') ->
  forall i st, state_before cfg i = Ok st -> P st.
Proof.
  intros Hinit Hstep. induction i as [| i IH]; intros st H.
  - rewrite state_before_0 in H. now apply Hinit.
  - apply state_before_S_inv in H. destruct H as (st0 & row & H0 & Hday).
    eapply Hstep; [apply IH; exact H0 | exact Hday].
Qed.

(** A reflexive and transitive relation that every day respects relates
    the states of any two days in their order. *)
Lemma reachable_rel (Rel : State -> State -> Prop) :
  (forall st, Rel st st) ->
  (forall a b c, Rel a b -> Rel b c -> Rel a c) ->
  (forall d st row st',
      day_body cfg d st empty_row = (row, Ok st') -> Rel st st') ->
  forall i j si sj,
    (i <= j)%nat ->
    state_before cfg i = Ok si -> state_before cfg j = Ok sj -> Rel si sj.
Proof.
  intros Hrefl Htrans Hstep i j si sj Hij Hi. revert sj.
  induction Hij as [| j Hij IH]; intros sj Hj.
  - rewrite Hi in Hj. inversion Hj; subst. apply Hrefl.
  - apply state_before_S_inv in Hj. destruct Hj as (st & row & Hst & Hday).
    eapply Htrans; [apply IH; exact Hst | eapply Hstep; exact Hday].
Qed.

End Trace.

(** ** The build-out curve is positive *)

Lemma exp_square_bound (x b c : R) : exp x <= b -> b * b <= c -> exp (2 * x) <= c.
Proof.
  intros Hb Hc. replace (2 * x) with (x + x) by ring. rewrite exp_plus.
  pose proof (exp_pos x). nra.
Qed.

Lemma exp_small_bound (y : R) : 0 <= y < 1 -> exp y <= / (1 - y).
Proof.
  intros Hy. pose proof (exp_ineq1_le (- y)) as H.
  rewrite exp_Ropp in H. pose proof (exp_pos y) as Hp.
  assert (H1 : (1 - y) * exp y <= 1).
  { replace 1 with (/ exp y * exp y) at 2 by (field; lra).
    apply Rmult_le_compat_r; lra. }
  apply Rmult_le_reg_l with (1 - y); [lra |].
  rewrite Rinv_r by lra. exact H1.
Qed.

Lemma exp_midpoint_bound : exp (2.83799528e-02 * 1.57630971e02) <= 96.
Proof.
  assert (H0 : exp 0.017475 <= 1.0178).
  { eapply Rle_trans; [apply exp_small_bound; lra |].
    apply Rmult_le_reg_l with (1 - 0.017475); [lra |].
    rewrite Rinv_r by lra. lra. }
  assert (H1 : exp (2 * 0.017475) <= 1.036)
    by (eapply exp_square_bound; [exact H0 | lra]).
  assert (H2 : exp (2 * (2 * 0.017475)) <= 1.0733)
    by (eapply exp_square_bound; [exact H1 | lra]).
  assert (H3 : exp (2 * (2 * (2 * 0.017475))) <= 1.152)
    by (eapply exp_square_bound; [exact H2 | lra]).
  assert (H4 : exp (2 * (2 * (2 * (2 * 0.017475)))) <= 1.3272)
    by (eapply exp_square_bound; [exact H3 | lra]).
  assert (H5 : exp (2 * (2 * (2 * (2 * (2 * 0.017475))))) <= 1.7615)
    by (eapply exp_square_bound; [exact H4 | lra]).
  assert (H6 : exp (2 * (2 * (2 * (2 * (2 * (2 * 0.017475)))))) <= 3.103)
    by (eapply exp_square_bound; [exact H5 | lra]).
  assert (H7 : exp (2 * (2 * (2 * (2 * (2 * (2 * (2 * 0.017475))))))) <= 9.629)
    by (eapply exp_square_bound; [exact H6 | lra]).
  assert (H8 : exp (2 * (2 * (2 * (2 * (2 * (2 * (2 * (2 * 0.017475)))))))) <= 96)
    by (eapply exp_square_bound; [exact H7 | lra]).
  eapply Rle_trans; [| exact H8].
  destruct (Req_dec (2.83799528e-02 * 1.57630971e02)
              (2 * (2 * (2 * (2 * (2 * (2 * (2 * (2 * 0.017475))))))))) as [-> | Hne];
    [lra |].
  left. apply exp_increasing. lra.
Qed.

(** From day 0 on the curve stays above one square kilometre a day. *)
Lemma seaweed_farm_area_per_day_gt_1 (day : R) :
  0 <= day -> 1 < seaweed_farm_area_per_day day.
Proof.
  intros Hday. unfold seaweed_farm_area_per_day, logistic_curve.
  set (e := exp (- (2.83799528e-02) * (day - 1.57630971e02))).
  assert (He0 : 0 < e) by apply exp_pos.
  assert (He : e <= 96).
  { eapply Rle_trans; [| exact exp_midpoint_bound].
    unfold e.
    destruct (Req_dec (- (2.83799528e-02) * (day - 1.57630971e02))
                (2.83799528e-02 * 1.57630971e02)) as [-> | Hne]; [lra |].
    left. apply exp_increasing. lra. }
  assert (H : 42.8 <= 4.15610385e03 / (1 + e)).
  { apply Rmult_le_reg_r with (1 + e); [lra |].
    replace (4.15610385e03 / (1 + e) * (1 + e)) with 4.15610385e03
      by (field; lra).
    lra. }
  lra.
Qed.

Lemma seaweed_farm_area_per_day_pos (d : nat) :
  0 < seaweed_farm_area_per_day (INR d).
Proof.
  pose proof (seaweed_farm_area_per_day_gt_1 (INR d) (pos_INR d)). lra.
Qed.

(** ** One day *)

(** Simplification computes on rows and records only. *)
Arguments self_shading density : simpl never.
Arguments seaweed_farm_area_per_day day : simpl never.
Arguments in_unit_interval x : simpl never.
Arguments pydiv a b : simpl never.
Arguments Rleb a b : simpl never.
Arguments Rltb a b : simpl never.

(** Case analysis of one run of the loop body: every branch and every
    point where the body can raise. *)
Ltac body_unfold H :=
  cbv [day_body build_area growth_multiplier harvest bind ret df_loc
       assert lift raise] in H.

Ltac body_split H :=
  repeat match type of H with
  | context [match ?x with _ => _ end] =>
      lazymatch x with
      | context [match _ with _ => _ end] => fail
      | _ => destruct x eqn:?
      end
  end.

Ltac to_prop :=
  repeat match goal with
  | H : Rltb _ _ = true |- _ => apply Rltb_true_iff in H
  | H : Rltb _ _ = false |- _ => apply Rltb_false_iff in H
  | H : Rleb _ _ = true |- _ => apply Rleb_true_iff in H
  | H : Rleb _ _ = false |- _ => apply Rleb_false_iff in H
  | H : andb _ _ = true |- _ => apply andb_true_iff in H; destruct H
  | H : in_unit_interval _ = true |- _ => apply in_unit_interval_iff in H
  | H : pydiv _ _ = Ok _ |- _ => apply pydiv_inv in H; destruct H
  | H : pydiv _ _ = Raise _ |- _ => apply pydiv_never_raises in H; destruct H
  | H : self_shading _ = ZeroDivision |- _ =>
      apply self_shading_never_divides in H; destruct H
  | H : (_, _) = (_, _) |- _ => inversion H; clear H
  end.

Ltac day_cases H :=
  body_unfold H; body_split H; try discriminate H; to_prop; subst.

Section Step.

Variable cfg : Config.
Variables (d : nat) (st : State).

(** A day that runs to its end records the state it leaves. *)
Lemma day_body_complete (row : Row) (st' : State) :
  day_body cfg d st empty_row = (row, Ok st') ->
  row col_current_area_built = Some (current_area_built st') /\
  row col_current_area_used = Some (current_area_used st') /\
  row col_current_seaweed = Some (current_seaweed st') /\
  row col_current_density = Some (current_density st') /\
  row col_cumulative_harvest_for_food = Some (cumulative_harvest_for_food st') /\
  row col_current_seaweed_need = Some (current_seaweed_need st').
Proof.
  intros H. day_cases H; cbn; auto 10.
Qed.

(** A day that raises has not written any of its end-of-day cells. *)
Lemma day_body_raised (row : Row) (e : exn) :
  day_body cfg d st empty_row = (row, Raise e) ->
  row col_current_area_built = None /\
  row col_current_area_used = None /\
  row col_current_seaweed = None /\
  row col_current_density = None /\
  row col_cumulative_harvest_for_food = None /\
  row col_current_seaweed_need = None.
Proof.
  intros H. day_cases H; cbn; auto 10.
Qed.

(** Nor has a day that stops at a division by zero. *)
Lemma day_body_divided (row : Row) :
  day_body cfg d st empty_row = (row, ZeroDivision) ->
  row col_current_area_built = None /\
  row col_current_area_used = None /\
  row col_current_seaweed = None /\
  row col_current_density = None /\
  row col_cumulative_harvest_for_food = None /\
  row col_current_seaweed_need = None.
Proof.
  intros H. day_cases H; cbn; auto 10.
Qed.

End Step.

Lemma mul_div_cancel (x m : R) : m <> 0 -> x * m / m = x.
Proof. intros Hm. field. exact Hm. Qed.

Ltac cells :=
  cbn in *; unfold empty_row in *;
  repeat match goal with
  | H : Some _ = Some _ |- _ => inversion H; clear H; subst
  | H : None = Some _ |- _ => discriminate H
  | H : Some _ = None |- _ => discriminate H
  end.

Section StepFacts.

Variable cfg : Config.
Variables (d : nat) (st : State).

(** The builder: idle up to the lag, then adding the usable increment
    and clamping at [max_area]; stuck once [max_area] is reached. *)
Lemma day_body_built (row : Row) (st' : State) :
  day_body cfg d st empty_row = (row, Ok st') ->
  (current_area_built st <= max_area cfg ->
   current_area_built st' <= max_area cfg) /\
  (max_area cfg <= current_area_built st ->
   current_area_built st' = current_area_built st) /\
  (INR d <= initial_lag cfg ->
   current_area_built st' = current_area_built st) /\
  (forall a,
     row col_new_module_area_per_day = Some a ->
     initial_lag cfg < INR d ->
     current_area_built st < max_area cfg ->
     (max_area cfg <
      current_area_built st + a * (percent_usable_for_growth cfg / 100) ->
      current_area_built st' = max_area cfg) /\
     (current_area_built st + a * (percent_usable_for_growth cfg / 100)
      <= max_area cfg ->
      current_area_built st' =
      current_area_built st + a * (percent_usable_for_growth cfg / 100))).
Proof.
  intros H. day_cases H; cells; repeat split; intros; cells; lra.
Qed.

(** Food is only ever added to the running total. *)
Lemma day_body_cumulative (row : Row) (st' : State) :
  day_body cfg d st empty_row = (row, Ok st') ->
  cumulative_harvest_for_food st <= cumulative_harvest_for_food st'.
Proof.
  intros H. day_cases H; cells; lra.
Qed.

(** The recorded density is the one computed right after growth, on the
    used area the day started with; the harvest fires exactly when it
    has reached [max_density], and does not touch it. *)
Lemma day_body_density (row : Row) (r : result State) (v : R) :
  day_body cfg d st empty_row = (row, r) ->
  row col_current_density = Some v ->
  exists agr,
    row col_actual_growth_rate_multiplicator = Some agr /\
    current_area_used st <> 0 /\
    v = current_seaweed st * agr / current_area_used st /\
    (forall h, row col_harvest_intervall = Some h -> max_density cfg <= v) /\
    (row col_harvest_intervall = None -> v < max_density cfg).
Proof.
  intros H Hv. day_cases H; cells;
    (eexists; split; [reflexivity |]); repeat split; intros; cells;
    try assumption; try lra.
Qed.

(** The multiplier, by the shape of [growth_rate_fraction]; a list is
    read at the index of the day. *)
Lemma day_body_multiplier (row : Row) (r : result State) (a : R) :
  day_body cfg d st empty_row = (row, r) ->
  row col_actual_growth_rate_multiplicator = Some a ->
  exists ssf,
    self_shading (current_density st / 1000) = Ok ssf /\
    match growth_rate_fraction cfg with
    | PyFloat f => a = 1 + (optimal_growth_rate cfg * f * ssf) / 100
    | PyList l =>
        forallb in_unit_interval l = true /\
        exists f, nth_error l d = Some f /\
                  a = 1 + (optimal_growth_rate cfg * f * ssf) / 100
    | _ => False
    end.
Proof.
  intros H Ha. day_cases H; cells; repeat econstructor.
Qed.

(** The counter: what a harvest records is the counter the day started
    with, and every finished day leaves it at one or more. *)
Lemma day_body_interval (row : Row) (r : result State) :
  day_body cfg d st empty_row = (row, r) ->
  (forall h, row col_harvest_intervall = Some h ->
             h = INR (harvest_intervall st)) /\
  (forall st', r = Ok st' -> (1 <= harvest_intervall st')%nat).
Proof.
  intros H. day_cases H; cells; split; intros; cells;
    try reflexivity; try discriminate;
    match goal with
    | Hr : Ok _ = Ok _ |- _ => inversion Hr; subst; cbn; lia
    end.
Qed.

(** The surplus branch of the harvest (the one that records food):
    the food is not negative, and the used area grows by all the built
    area that was still unused. *)
Lemma day_body_surplus (row : Row) (r : result State) (food : R) :
  day_body cfg d st empty_row = (row, r) ->
  row col_harvest_for_food = Some food ->
  0 <= food /\
  (exists h, row col_harvest_intervall = Some h) /\
  forall a b u,
    row col_new_area_used = Some a ->
    row col_current_area_built = Some b ->
    row col_current_area_used = Some u ->
    a = b - current_area_used st /\ u = b.
Proof.
  intros H Hf. day_cases H; cells;
    (split; [lra |]); (split; [eexists; reflexivity |]);
    intros; cells; rewrite ?mul_div_cancel by assumption; split; lra.
Qed.



End StepFacts.

(** ** Running the engine on concrete inputs *)

Lemma frame_row_at (cfg : Config) (i : nat) (st : State) :
  (i < days_to_run cfg)%nat ->
  state_before cfg i = Ok st ->
  nth_error (fst (seaweed_growth_frame cfg)) i =
  Some (fst (day_body cfg i st empty_row)).
Proof.
  intros Hi Hst.
  assert (Hinit : exists st0, initial_state cfg = Ok st0).
  { unfold state_before in Hst. destruct (initial_state cfg) as [st0 | e |];
      [now exists st0 | discriminate | discriminate]. }
  destruct Hinit as [st0 Hinit].
  destruct (nth_error (fst (seaweed_growth_frame cfg)) i) as [row |] eqn:Hrow.
  - apply frame_row in Hrow. destruct Hrow as [_ Hrow].
    rewrite Hst in Hrow. now subst.
  - apply nth_error_None in Hrow. rewrite (frame_length cfg st0 Hinit) in Hrow. lia.
Qed.

(** Decide one closed condition of the body. *)
Ltac decide_cond :=
  match goal with
  | |- context [Rltb ?a ?b] =>
      first [rewrite (Rltb_true a b) by lra | rewrite (Rltb_false a b) by lra]
  | |- context [Rleb ?a ?b] =>
      first [rewrite (Rleb_true a b) by lra | rewrite (Rleb_false a b) by lra]
  | |- context [pydiv ?a ?b] =>
      first [rewrite (pydiv_ok a b) by lra | rewrite (pydiv_zero a)]
  | |- context [self_shading ?x] =>
      first [rewrite (self_shading_low x) by lra
            | rewrite (self_shading_nonpos x) by lra
            | rewrite (self_shading_high x) by lra]
  | |- context [in_unit_interval ?x] =>
      rewrite (proj2 (in_unit_interval_iff x)) by lra
  end.

Ltac run_engine :=
  cbv [seaweed_growth seaweed_growth_frame state_before initial_state loop seq
       day_body build_area growth_multiplier harvest bind ret df_loc assert
       lift raise run_config cfg_dense_start cfg_unstocked cfg_int_fraction
       cfg_unbuild cfg_short_series cfg_clamp cfg_idle cfg_surplus
       cfg_series_overgrowth
       calibration_config
       harvest_loss initial_seaweed initial_area_built initial_area_used
       new_module_area_per_day min_density max_density max_area
       optimal_growth_rate growth_rate_fraction initial_lag
       percent_usable_for_growth days_to_run
       module_area current_area_built current_area_used current_seaweed
       current_density cumulative_harvest_for_food current_seaweed_need
       harvest_intervall forallb nth_error map fst snd andb INR];
  repeat (decide_cond;
          cbv beta iota zeta delta [forallb nth_error map fst snd andb]).

Ltac cell := cbv [row_set empty_row]; cbn; try (f_equal; lra).


(** ** Rows against states *)

Section Rows.

Variable cfg : Config.

(** A row that holds one of the cells written at the end of the day
    belongs to a day that ran to its end. *)
Lemma frame_row_finished (i : nat) (row : Row) (c : column) (v : R) :
  c = col_current_area_built \/ c = col_current_area_used \/
  c = col_current_seaweed \/ c = col_current_density \/
  c = col_cumulative_harvest_for_food \/ c = col_current_seaweed_need ->
  nth_error (fst (seaweed_growth_frame cfg)) i = Some row ->
  row c = Some v ->
  exists st st',
    state_before cfg i = Ok st /\
    day_body cfg i st empty_row = (row, Ok st') /\
    state_before cfg (S i) = Ok st'.
Proof.
  intros Hc Hrow Hv.
  destruct (frame_row_started cfg i row c v Hrow Hv) as (st & Hst & Heq).
  destruct (day_body cfg i st empty_row) as [row' [st' | e |]] eqn:Hday;
    cbn [fst] in Heq; subst row'.
  - exists st, st'. repeat split; try assumption.
    rewrite state_before_S, Hst, Hday. reflexivity.
  - exfalso. apply day_body_raised in Hday.
    destruct Hday as (H1 & H2 & H3 & H4 & H5 & H6).
    destruct Hc as [-> | [-> | [-> | [-> | [-> | ->]]]]]; congruence.
  - exfalso. apply day_body_divided in Hday.
    destruct Hday as (H1 & H2 & H3 & H4 & H5 & H6).
    destruct Hc as [-> | [-> | [-> | [-> | [-> | ->]]]]]; congruence.
Qed.

(** Once a day has raised, no later state exists. *)
Lemma state_before_raise (i j : nat) (e : exn) :
  (i <= j)%nat -> state_before cfg i = Raise e -> state_before cfg j = Raise e.
Proof.
  intros Hij Hi. induction Hij as [| j Hij IH]; [assumption |].
  rewrite state_before_S, IH. reflexivity.
Qed.

(** The same after a division by zero. *)
Lemma state_before_divided (i j : nat) :
  (i <= j)%nat -> state_before cfg i = ZeroDivision ->
  state_before cfg j = ZeroDivision.
Proof.
  intros Hij Hi. induction Hij as [| j Hij IH]; [assumption |].
  rewrite state_before_S, IH. reflexivity.
Qed.

Lemma state_before_ok (i j : nat) (st : State) :
  (i <= j)%nat -> state_before cfg j = Ok st ->
  exists st', state_before cfg i = Ok st'.
Proof.
  intros Hij Hj. destruct (state_before cfg i) as [st' | e |] eqn:Hi.
  - now exists st'.
  - rewrite (state_before_raise i j e Hij Hi) in Hj. discriminate.
  - rewrite (state_before_divided i j Hij Hi) in Hj. discriminate.
Qed.

Lemma seaweed_growth_outcome :
  seaweed_growth cfg =
  match state_before cfg (days_to_run cfg) with
  | Ok _ => Ok (fst (seaweed_growth_frame cfg))
  | Raise e => Raise e
  | ZeroDivision => ZeroDivision
  end.
Proof.
  rewrite <- frame_outcome. unfold seaweed_growth.
  destruct (seaweed_growth_frame cfg) as [df [st | e |]]; reflexivity.
Qed.

End Rows.

(** ** C6: the food total *)

(** C6. The cumulative food-harvest mass recorded in the frame never
    decreases from one day to a later one.  This holds for every
    configuration, hence in particular under the conditions of the claim
    (loss fraction in [0, 1], [min_density <= max_density], initial used
    area within built area), and also for the rows of a run that is
    aborted later. *)
Theorem cumulative_harvest_monotone (cfg : Config) (i j : nat)
  (ri rj : Row) (vi vj : R) :
  (i <= j)%nat ->
  nth_error (fst (seaweed_growth_frame cfg)) i = Some ri ->
  nth_error (fst (seaweed_growth_frame cfg)) j = Some rj ->
  ri col_cumulative_harvest_for_food = Some vi ->
  rj col_cumulative_harvest_for_food = Some vj ->
  vi <= vj.
Proof.
  intros Hij Hri Hrj Hvi Hvj.
  destruct (frame_row_finished cfg i ri col_cumulative_harvest_for_food vi
              ltac:(tauto) Hri Hvi)
    as (si & si' & _ & Hdi & Hsi).
  destruct (frame_row_finished cfg j rj col_cumulative_harvest_for_food vj
              ltac:(tauto) Hrj Hvj)
    as (sj & sj' & _ & Hdj & Hsj).
  apply day_body_complete in Hdi, Hdj.
  destruct Hdi as (_ & _ & _ & _ & Hci & _).
  destruct Hdj as (_ & _ & _ & _ & Hcj & _).
  assert (vi = cumulative_harvest_for_food si') by congruence.
  assert (vj = cumulative_harvest_for_food sj') by congruence.
  subst vi vj.
  apply (reachable_rel cfg
           (fun a b => cumulative_harvest_for_food a
                       <= cumulative_harvest_for_food b))
    with (i := S i) (j := S j); try assumption; try lia.
  - intros; lra.
  - intros; lra.
  - intros d st row st' H. eapply day_body_cumulative; exact H.
Qed.

Lemma cumulative_harvest_monotone_witness :
  exists ri rj vi vj,
    nth_error (fst (seaweed_growth_frame cfg_dense_start)) 0 = Some ri /\
    nth_error (fst (seaweed_growth_frame cfg_dense_start)) 1 = Some rj /\
    ri col_cumulative_harvest_for_food = Some vi /\
    rj col_cumulative_harvest_for_food = Some vj /\
    vi = 28 /\ vi <= vj.
Proof.
  assert (H0 : exists ri,
             nth_error (fst (seaweed_growth_frame cfg_dense_start)) 0 = Some ri /\
             ri col_cumulative_harvest_for_food = Some 28).
  { run_engine. eexists. split; [reflexivity | cell]. }
  assert (H1 : exists rj,
             nth_error (fst (seaweed_growth_frame cfg_dense_start)) 1 = Some rj /\
             rj col_cumulative_harvest_for_food = Some 28).
  { run_engine. eexists. split; [reflexivity | cell]. }
  destruct H0 as (ri & Hri & Hvi). destruct H1 as (rj & Hrj & Hvj).
  exists ri, rj, 28, 28. repeat split; try assumption.
  apply (cumulative_harvest_monotone cfg_dense_start 0 1 ri rj 28 28);
    try assumption. lia.
Defined.

(** ** C5: the built area *)

Lemma initial_state_inv (cfg : Config) (st : State) :
  initial_state cfg = Ok st ->
  initial_area_used cfg <> 0 /\
  module_area st = new_module_area_per_day cfg /\
  current_area_built st = initial_area_built cfg /\
  current_area_used st = initial_area_used cfg /\
  current_seaweed st = initial_seaweed cfg /\
  current_density st = initial_seaweed cfg / initial_area_used cfg /\
  cumulative_harvest_for_food st = 0 /\
  harvest_intervall st = O.
Proof.
  unfold initial_state.
  destruct (pydiv (initial_seaweed cfg) (initial_area_used cfg)) as [v | e |] eqn:Hd;
    [| discriminate | discriminate].
  apply pydiv_inv in Hd. destruct Hd as [Hu ->].
  intros H. inversion H; subst; cbn. repeat split; auto.
Qed.

(** C5. In a run whose initial built area does not exceed [max_area]:
    the built area recorded for any day is at most [max_area]; on a day
    on which the builder works and the usable increment would carry the
    built area past [max_area], the built area is set to [max_area]
    exactly; and once a day has recorded [max_area], every later day
    records [max_area] too. *)
Theorem built_area_capped (cfg : Config) :
  initial_area_built cfg <= max_area cfg ->
  (forall i row b,
     nth_error (fst (seaweed_growth_frame cfg)) i = Some row ->
     row col_current_area_built = Some b ->
     b <= max_area cfg) /\
  (forall i row st a b,
     nth_error (fst (seaweed_growth_frame cfg)) i = Some row ->
     state_before cfg i = Ok st ->
     row col_new_module_area_per_day = Some a ->
     row col_current_area_built = Some b ->
     initial_lag cfg < INR i ->
     current_area_built st < max_area cfg ->
     max_area cfg <
     current_area_built st + a * (percent_usable_for_growth cfg / 100) ->
     b = max_area cfg) /\
  (forall i j ri rj bi bj,
     (i <= j)%nat ->
     nth_error (fst (seaweed_growth_frame cfg)) i = Some ri ->
     nth_error (fst (seaweed_growth_frame cfg)) j = Some rj ->
     ri col_current_area_built = Some bi ->
     rj col_current_area_built = Some bj ->
     bi = max_area cfg ->
     bj = max_area cfg).
Proof.
  intros Hinit. split; [| split].
  - intros i row b Hrow Hb.
    destruct (frame_row_finished cfg i row col_current_area_built b
                ltac:(tauto) Hrow Hb) as (st & st' & _ & Hday & Hst').
    apply day_body_complete in Hday. destruct Hday as (Hb' & _).
    assert (b = current_area_built st') by congruence. subst b.
    apply (reachable_ind cfg (fun s => current_area_built s <= max_area cfg))
      with (i := S i); try assumption.
    + intros s Hs. apply initial_state_inv in Hs.
      destruct Hs as (_ & _ & -> & _). exact Hinit.
    + intros d s r s' Hle Hd. apply day_body_built in Hd. now apply Hd.
  - intros i row st a b Hrow Hst Ha Hb Hlag Hlt Hover.
    destruct (frame_row_finished cfg i row col_current_area_built b
                ltac:(tauto) Hrow Hb) as (st0 & st' & Hst0 & Hday & _).
    assert (st0 = st) by congruence. subst st0.
    pose proof (day_body_complete cfg i st row st' Hday) as (Hb' & _).
    apply day_body_built in Hday. destruct Hday as (_ & _ & _ & Hbuild).
    destruct (Hbuild a Ha Hlag Hlt) as [Hclamp _].
    rewrite Hb in Hb'. inversion Hb'. now apply Hclamp.
  - intros i j ri rj bi bj Hij Hri Hrj Hbi Hbj Hmax.
    destruct (frame_row_finished cfg i ri col_current_area_built bi
                ltac:(tauto) Hri Hbi) as (si & si' & _ & Hdi & Hsi).
    destruct (frame_row_finished cfg j rj col_current_area_built bj
                ltac:(tauto) Hrj Hbj) as (sj & sj' & _ & Hdj & Hsj).
    apply day_body_complete in Hdi, Hdj.
    destruct Hdi as (Hi' & _). destruct Hdj as (Hj' & _).
    assert (Ei : bi = current_area_built si') by congruence.
    assert (Ej : bj = current_area_built sj') by congruence.
    rewrite Ej. rewrite Ei in Hmax. revert Hmax.
    apply (reachable_rel cfg
             (fun a b => current_area_built a = max_area cfg ->
                         current_area_built b = max_area cfg))
      with (i := S i) (j := S j); try assumption; try lia.
    + auto.
    + auto.
    + intros d s r s' Hd Hs. apply day_body_built in Hd.
      destruct Hd as (_ & Hstuck & _). rewrite Hstuck; lra.
Qed.

Lemma built_area_capped_witness :
  initial_area_built cfg_clamp <= max_area cfg_clamp /\
  exists r1 r2 st a,
    nth_error (fst (seaweed_growth_frame cfg_clamp)) 1 = Some r1 /\
    nth_error (fst (seaweed_growth_frame cfg_clamp)) 2 = Some r2 /\
    state_before cfg_clamp 1 = Ok st /\
    r1 col_new_module_area_per_day = Some a /\
    current_area_built st < max_area cfg_clamp /\
    max_area cfg_clamp <
    current_area_built st + a * (percent_usable_for_growth cfg_clamp / 100) /\
    r1 col_current_area_built = Some (max_area cfg_clamp) /\
    r2 col_current_area_built = Some (max_area cfg_clamp).
Proof.
  assert (Hle : initial_area_built cfg_clamp <= max_area cfg_clamp)
    by (cbn; lra).
  split; [exact Hle |].
  destruct (built_area_capped cfg_clamp Hle) as (Hbound & Hclamp & Hstuck).
  pose proof (seaweed_farm_area_per_day_gt_1 0 ltac:(lra)) as A0.
  pose proof (seaweed_farm_area_per_day_gt_1 1 ltac:(lra)) as A1.
  pose proof (seaweed_farm_area_per_day_gt_1 (1 + 1) ltac:(lra)) as A2.
  assert (H1 : exists r1 st b1,
             nth_error (fst (seaweed_growth_frame cfg_clamp)) 1 = Some r1 /\
             state_before cfg_clamp 1 = Ok st /\
             current_area_built st = 100 /\
             r1 col_new_module_area_per_day
             = Some (seaweed_farm_area_per_day 1) /\
             r1 col_current_area_built = Some b1).
  { run_engine. do 3 eexists.
    split; [reflexivity |]. split; [reflexivity |].
    split; [reflexivity |]. split; cell; reflexivity. }
  assert (H2 : exists r2 b2,
             nth_error (fst (seaweed_growth_frame cfg_clamp)) 2 = Some r2 /\
             r2 col_current_area_built = Some b2).
  { run_engine. do 2 eexists. split; [reflexivity | cell; reflexivity]. }
  destruct H1 as (r1 & st & b1 & Hr1 & Hst & Hb & Ha & Hb1).
  destruct H2 as (r2 & b2 & Hr2 & Hb2).
  assert (Hlt : current_area_built st < max_area cfg_clamp)
    by (rewrite Hb; cbn; lra).
  assert (Hover : max_area cfg_clamp <
                  current_area_built st
                  + seaweed_farm_area_per_day 1
                    * (percent_usable_for_growth cfg_clamp / 100))
    by (rewrite Hb; cbn; lra).
  assert (E1 : b1 = max_area cfg_clamp).
  { apply (Hclamp 1%nat r1 st (seaweed_farm_area_per_day 1) b1);
      try assumption. cbn. lra. }
  assert (E2 : b2 = max_area cfg_clamp).
  { apply (Hstuck 1%nat 2%nat r1 r2 b1 b2); try assumption. lia. }
  subst b1 b2.
  exists r1, r2, st, (seaweed_farm_area_per_day 1).
  repeat split; assumption.
Defined.

(** ** C2: the density recorded on a harvest day *)

(** C2, as amended.  On a day on which a harvest fires, the density
    stored in the day's record is the one computed right after growth
    (the grown biomass over the used area the day started with): it is
    the value that triggered the harvest, so it is at least
    [max_density], and it is not recomputed after the harvest. *)
Theorem recorded_density_at_harvest (cfg : Config) (i : nat) (row : Row)
  (h v : R) :
  nth_error (fst (seaweed_growth_frame cfg)) i = Some row ->
  row col_harvest_intervall = Some h ->
  row col_current_density = Some v ->
  max_density cfg <= v /\
  exists st agr,
    state_before cfg i = Ok st /\
    row col_actual_growth_rate_multiplicator = Some agr /\
    v = current_seaweed st * agr / current_area_used st.
Proof.
  intros Hrow Hh Hv.
  destruct (frame_row_started cfg i row _ v Hrow Hv) as (st & Hst & Heq).
  destruct (day_body cfg i st empty_row) as [row' r] eqn:Hday.
  cbn [fst] in Heq. subst row'.
  destruct (day_body_density cfg i st row r v Hday Hv)
    as (agr & Hagr & _ & Hval & Hfire & _).
  split; [eapply Hfire; exact Hh |].
  exists st, agr. auto.
Qed.

Lemma recorded_density_at_harvest_witness :
  exists row,
    nth_error (fst (seaweed_growth_frame cfg_dense_start)) 0 = Some row /\
    row col_harvest_intervall = Some 0 /\
    row col_current_density = Some 40 /\
    max_density cfg_dense_start <= 40.
Proof.
  assert (H : exists row,
             nth_error (fst (seaweed_growth_frame cfg_dense_start)) 0 = Some row /\
             row col_harvest_intervall = Some 0 /\
             row col_current_density = Some 40).
  { run_engine. eexists. split; [reflexivity |]. split; cell. }
  destruct H as (row & Hrow & Hh & Hv).
  exists row. repeat split; try assumption.
  apply (recorded_density_at_harvest cfg_dense_start 0 row 0 40 Hrow Hh Hv).
Defined.

(** The claim as stated fails: the harvest of day 0 leaves the record
    with density 40, above [max_density] = 36. *)
Lemma recorded_density_at_harvest_counterexample :
  exists row,
    nth_error (fst (seaweed_growth_frame cfg_dense_start)) 0 = Some row /\
    row col_harvest_intervall = Some 0 /\
    row col_current_density = Some 40 /\
    ~ 40 <= max_density cfg_dense_start.
Proof.
  run_engine. eexists. split; [reflexivity |].
  split; [cell |]. split; [cell |]. lra.
Qed.

(** ** More facts about one day: where it raises *)

Lemma self_shading_ok (x : R) :
  0 < x -> exists v, self_shading x = Ok v /\ 0 <= v <= 1.
Proof.
  intros Hx. destruct (self_shading x) as [v | e |] eqn:H.
  - exists v. split; [reflexivity |]. now apply self_shading_range in H.
  - unfold self_shading in H. rewrite Rltb_true in H by assumption.
    destruct (Rltb x 0.4); discriminate.
  - now apply self_shading_never_divides in H.
Qed.

Lemma self_shading_ok_inv (x v : R) : self_shading x = Ok v -> 0 < x.
Proof. intros H. now apply self_shading_range in H. Qed.

Ltac to_prop_neg :=
  repeat match goal with
  | H : in_unit_interval _ = false |- _ =>
      unfold in_unit_interval in H
  | H : andb _ _ = false |- _ =>
      apply andb_false_iff in H; destruct H
  | H : Rleb _ _ = false |- _ => apply Rleb_false_iff in H
  | H : Rltb _ _ = false |- _ => apply Rltb_false_iff in H
  | H : pydiv _ _ = ZeroDivision |- _ => apply pydiv_zero_inv in H
  end.

Section Raising.

Variable cfg : Config.
Variables (d : nat) (st : State).




(** A list that does not reach the day. *)
Lemma day_body_series (l : list R) :
  growth_rate_fraction cfg = PyList l ->
  (forall row st',
     day_body cfg d st empty_row = (row, Ok st') ->
     forallb in_unit_interval l = true /\ nth_error l d <> None) /\
  (forall ssf,
     nth_error l d = None ->
     forallb in_unit_interval l = true ->
     self_shading (current_density st / 1000) = Ok ssf ->
     exists row, day_body cfg d st empty_row = (row, Raise IndexError)).
Proof.
  intros Hg. split.
  - intros row st' H. body_unfold H. rewrite Hg in H.
    body_split H; try discriminate H; split; congruence.
  - intros ssf Hnone Hall Hss.
    cbv [day_body build_area growth_multiplier harvest bind ret df_loc
         assert lift raise].
    rewrite Hg, Hss, Hall, Hnone.
    destruct (Rltb (initial_lag cfg) (INR d));
      try destruct (Rltb (current_area_built st) (max_area cfg));
      eexists; reflexivity.
Qed.

(** The deficit branch of the harvest (a harvest that records no food):
    the used area grows by all the built area that was still unused,
    although the harvest after loss holds less than the biomass that
    area needs at [min_density]. *)
Lemma day_body_deficit (row : Row) (r : result State) (h a b hwl : R) :
  day_body cfg d st empty_row = (row, r) ->
  row col_harvest_intervall = Some h ->
  row col_harvest_for_food = None ->
  row col_new_area_used = Some a ->
  row col_harvest_wet_with_loss = Some hwl ->
  row col_current_area_built = Some b ->
  min_density cfg <> 0 /\
  hwl < (b - current_area_used st) * min_density cfg /\
  a = b - current_area_used st /\
  a <> hwl / min_density cfg.
Proof.
  intros H Hh Hf Ha Hw Hb.
  day_cases H; cells; rewrite ?mul_div_cancel by assumption;
    (split; [assumption |]); (split; [assumption |]);
    (split; [reflexivity |]);
    intros Heq;
    match goal with
    | Hm : min_density cfg <> 0, Hlt : ?w < ?n * min_density cfg |- _ =>
        assert (n * min_density cfg = w)
          by (rewrite Heq; field; exact Hm); lra
    end.
Qed.

End Raising.

Section HarvestCondition.

Variable cfg : Config.
Variables (d : nat) (st : State).

(** A harvest is only recorded after the multiplier passed its
    assertion and the grown density reached [max_density]. *)
Lemma day_body_harvest_cond (row : Row) (r : result State) (h : R) :
  day_body cfg d st empty_row = (row, r) ->
  row col_harvest_intervall = Some h ->
  exists agr,
    row col_actual_growth_rate_multiplicator = Some agr /\
    0 <= agr <= 2 /\
    current_area_used st <> 0 /\
    max_density cfg <= current_seaweed st * agr / current_area_used st.
Proof.
  intros H Hh. day_cases H; cells;
    (eexists; split; [reflexivity |]); repeat split; assumption.
Qed.

End HarvestCondition.

Lemma initial_state_ok (cfg : Config) :
  initial_area_used cfg <> 0 ->
  exists st,
    initial_state cfg = Ok st /\
    current_seaweed st = initial_seaweed cfg /\
    current_area_used st = initial_area_used cfg /\
    current_density st = initial_seaweed cfg / initial_area_used cfg.
Proof.
  intros Hu. unfold initial_state. rewrite pydiv_ok by assumption.
  eexists. split; [reflexivity |]. cbn. auto.
Qed.

(** ** C9: a run without growth *)





(** ** C3: a fraction of an unsupported type *)




(** ** C8: a fraction given as a series *)

(** C8, as amended.  With a list as [growth_rate_fraction], the
    multiplier of day [i] is computed from the element at index [i].  A
    list shorter than [days_to_run] never lets the run return a frame.
    The run stops with the [IndexError] of the out-of-range index (the
    spec's ConfigError) when it gets as far as the first day the list
    does not cover and that day's self-shading is defined; an earlier
    day may have stopped it with another exception. *)
Theorem series_indexed_by_day (cfg : Config) (l : list R) :
  growth_rate_fraction cfg = PyList l ->
  (forall i row a,
     nth_error (fst (seaweed_growth_frame cfg)) i = Some row ->
     row col_actual_growth_rate_multiplicator = Some a ->
     exists st ssf f,
       state_before cfg i = Ok st /\
       self_shading (current_density st / 1000) = Ok ssf /\
       nth_error l i = Some f /\
       a = 1 + (optimal_growth_rate cfg * f * ssf) / 100) /\
  ((length l < days_to_run cfg)%nat ->
   (forall df, seaweed_growth cfg <> Ok df) /\
   (forall st ssf,
      state_before cfg (length l) = Ok st ->
      self_shading (current_density st / 1000) = Ok ssf ->
      seaweed_growth cfg = Raise IndexError)).
Proof.
  intros Hg. split.
  - intros i row a Hrow Ha.
    destruct (frame_row_started cfg i row _ a Hrow Ha) as (st & Hst & Heq).
    destruct (day_body cfg i st empty_row) as [row' r] eqn:Hday.
    cbn [fst] in Heq. subst row'.
    destruct (day_body_multiplier cfg i st row r a Hday Ha) as (ssf & Hss & Hm).
    rewrite Hg in Hm. destruct Hm as (_ & f & Hf & Hval).
    exists st, ssf, f. auto.
  - intros Hshort.
    assert (Hnone : nth_error l (length l) = None)
      by (apply nth_error_None; lia).
    assert (Hraise : forall e,
               state_before cfg (S (length l)) = Raise e ->
               seaweed_growth cfg = Raise e).
    { intros e He. rewrite seaweed_growth_outcome.
      rewrite (state_before_raise cfg (S (length l)) (days_to_run cfg) e);
        auto. }
    split.
    + intros df Hdf. rewrite seaweed_growth_outcome in Hdf.
      destruct (state_before cfg (days_to_run cfg)) as [stn | e |] eqn:Hn;
        try discriminate Hdf.
      destruct (state_before_ok cfg (S (length l)) (days_to_run cfg) stn)
        as [st' Hst']; [lia | exact Hn |].
      apply state_before_S_inv in Hst'.
      destruct Hst' as (st & row & _ & Hday).
      destruct (day_body_series cfg (length l) st l Hg) as [Hok _].
      destruct (Hok row st' Hday) as [_ Hsome]. contradiction.
    + intros st ssf Hst Hss. apply Hraise.
      assert (Hall : forallb in_unit_interval l = true).
      { destruct l as [| x l']; [reflexivity |].
        destruct (state_before_ok cfg 1 (length (x :: l')) st) as [st1 Hst1];
          [cbn; lia | exact Hst |].
        apply state_before_S_inv in Hst1.
        destruct Hst1 as (st0 & row & _ & Hday).
        destruct (day_body_series cfg 0 st0 (x :: l') Hg) as [Hok _].
        now destruct (Hok row st1 Hday). }
      destruct (day_body_series cfg (length l) st l Hg) as [_ Hidx].
      destruct (Hidx ssf Hnone Hall Hss) as [row Hday].
      rewrite state_before_S, Hst, Hday. reflexivity.
Qed.

Lemma series_indexed_by_day_witness :
  growth_rate_fraction cfg_short_series = PyList [0] /\
  (length [0] < days_to_run cfg_short_series)%nat /\
  (exists row a st ssf f,
     nth_error (fst (seaweed_growth_frame cfg_short_series)) 0 = Some row /\
     row col_actual_growth_rate_multiplicator = Some a /\
     state_before cfg_short_series 0 = Ok st /\
     self_shading (current_density st / 1000) = Ok ssf /\
     nth_error [0] 0 = Some f /\
     a = 1 + (optimal_growth_rate cfg_short_series * f * ssf) / 100) /\
  seaweed_growth cfg_short_series = Raise IndexError.
Proof.
  assert (Hg : growth_rate_fraction cfg_short_series = PyList [0])
    by reflexivity.
  assert (Hshort : (length [0] < days_to_run cfg_short_series)%nat)
    by (cbn; lia).
  destruct (series_indexed_by_day cfg_short_series [0] Hg) as (Hidx & Hfail).
  destruct (Hfail Hshort) as (_ & Herr).
  split; [exact Hg |]. split; [exact Hshort |]. split.
  - assert (H : exists row a,
               nth_error (fst (seaweed_growth_frame cfg_short_series)) 0
               = Some row /\
               row col_actual_growth_rate_multiplicator = Some a).
    { run_engine. do 2 eexists. split; [reflexivity | cell; reflexivity]. }
    destruct H as (row & a & Hrow & Ha).
    destruct (Hidx 0%nat row a Hrow Ha) as (st & ssf & f & H1 & H2 & H3 & H4).
    exists row, a, st, ssf, f. auto 10.
  - assert (H : exists st,
               state_before cfg_short_series 1 = Ok st /\
               self_shading (current_density st / 1000) = Ok 1).
    { run_engine. eexists. split; [reflexivity |].
      cbn. apply self_shading_low. lra. }
    destruct H as (st & Hst & Hss).
    exact (Herr st 1 Hst Hss).
Defined.

(** C8, the claim as stated fails: a list of one value for a run of two
    days, with a growth rate of 300 %, stops on day 0, which the list
    covers: the multiplier 4 is written and fails the assertion of
    line 154.  The exception is [AssertionError]; the index is never
    out of range. *)
Theorem series_indexed_by_day_counterexample :
  growth_rate_fraction cfg_series_overgrowth = PyList [1] /\
  (length [1] < days_to_run cfg_series_overgrowth)%nat /\
  (exists row,
     seaweed_growth_frame cfg_series_overgrowth
     = ([row; empty_row], Raise AssertionError) /\
     row col_actual_growth_rate_multiplicator = Some 4) /\
  seaweed_growth cfg_series_overgrowth = Raise AssertionError.
Proof.
  split; [reflexivity |]. split; [cbn; lia |].
  assert (H : exists row,
             seaweed_growth_frame cfg_series_overgrowth
             = ([row; empty_row], Raise AssertionError) /\
             row col_actual_growth_rate_multiplicator = Some 4).
  { run_engine. eexists. split; [reflexivity | cell]. }
  split; [exact H |].
  destruct H as (row & Hrun & _).
  unfold seaweed_growth. rewrite Hrun. reflexivity.
Qed.

(** ** C10: used area against built area *)




(** Rounding.  The equalities [a = b - used] and [u = b] above, and
    with them [u <= b], are facts of exact arithmetic.  In binary64,
    with 1.9 km2 built, 0.1 km2 used and a [min_density] of 1200, the
    harvest leaves a used area of 1.9000000000000001, one unit in the
    last place above the built area; a second harvest then takes the
    used area down again, to 1.9. *)
Remark harvest_area_rounding :
  let built := Binary64.built_1_9 in
  let dmin := Binary64.dmin_1200 in
  let used1 := Binary64.area_used_after_harvest built Binary64.used_0_1 dmin in
  let used2 := Binary64.area_used_after_harvest built used1 dmin in
  PrimFloat.ltb built used1 = true /\
  used2 = built /\
  PrimFloat.ltb used2 used1 = true.
Proof. vm_compute. repeat split. Qed.

(** ** C1: the deficit branch of the harvest *)

(** C1 at a failing input.  Four square kilometres are built and one
    is used; the harvest of day 0 leaves 24 t after loss, less than the
    36 t the three unused square kilometres need.  The claim expands the
    used area by 24 / 12 = 2; the program expands it by 3, to all four
    built square kilometres, while it sets the biomass to
    12 + 24 = 36 t and records no food. *)
Theorem deficit_branch_at_failing_input :
  exists row,
    seaweed_growth cfg_unstocked = Ok [row] /\
    row col_seaweed_remaining_to_grow = Some 12 /\
    row col_harvest_wet_with_loss = Some 24 /\
    row col_harvest_for_food = None /\
    row col_new_area_used = Some 3 /\
    row col_current_area_used = Some 4 /\
    row col_current_seaweed = Some 36 /\
    24 / min_density cfg_unstocked = 2.
Proof.
  run_engine. eexists. split; [reflexivity |].
  repeat split; cell.
Qed.

(** ** C7: the calibrator *)

Lemma last_valid_None (series : list (option R)) :
  last_valid series = None <-> forall x, In x series -> x = None.
Proof.
  induction series as [| x series IH]; cbn.
  - split; [intros _ y [] | reflexivity].
  - destruct (last_valid series) as [v |].
    + split; [discriminate |]. intros H. exfalso.
      destruct IH as [_ IH].
      assert (Some v = None) by (apply IH; intros y Hy; apply H; now right).
      discriminate.
    + destruct IH as [IH _]. split.
      * intros -> y [<- | Hy]; [reflexivity | now apply IH].
      * intros H. apply H. now left.
Qed.

Lemma last_valid_In (series : list (option R)) (v : R) :
  last_valid series = Some v -> In (Some v) series.
Proof.
  induction series as [| x series IH]; cbn; [discriminate |].
  destruct (last_valid series) as [w |].
  - intros H. inversion H; subst. right. now apply IH.
  - intros ->. now left.
Qed.

Lemma loc_last_valid_eq (df : DataFrame) (c : column) :
  loc_last_valid df c =
  match last_valid (map (fun row => row c) df) with
  | Some v => Ok v
  | None => Raise KeyError
  end.
Proof.
  unfold loc_last_valid, df_getitem.
  destruct (existsb (fun row => is_valid (row c)) df) eqn:Hex; [reflexivity |].
  assert (Hnone : last_valid (map (fun row => row c) df) = None).
  { apply last_valid_None. intros x Hx. apply in_map_iff in Hx.
    destruct Hx as (row & <- & Hrow).
    destruct (row c) as [v |] eqn:Hc; [| reflexivity].
    assert (Htrue : existsb (fun row => is_valid (row c)) df = true).
    { apply existsb_exists. exists row. split; [assumption |].
      now rewrite Hc. }
    congruence. }
  now rewrite Hnone.
Qed.

Lemma seaweed_growth_Ok_inv (cfg : Config) (df : DataFrame) :
  seaweed_growth cfg = Ok df ->
  df = fst (seaweed_growth_frame cfg) /\
  exists st, state_before cfg (days_to_run cfg) = Ok st.
Proof.
  rewrite seaweed_growth_outcome.
  destruct (state_before cfg (days_to_run cfg)) as [st | e |];
    [| discriminate | discriminate].
  intros H. inversion H. split; [reflexivity | now exists st].
Qed.

(** In a calibration run a harvest never records the interval 0: day 0
    cannot harvest (one tonne, at most doubled, is far from 3600 t on
    one square kilometre), and later days start with a counter of at
    least one. *)
Lemma calibration_interval_positive (loss : R) (fraction : pyval)
  (days : nat) (pct ogr : R) (i : nat) (row : Row) (h : R) :
  nth_error
    (fst (seaweed_growth_frame (calibration_config loss fraction days pct ogr)))
    i = Some row ->
  row col_harvest_intervall = Some h ->
  1 <= h.
Proof.
  set (cfg := calibration_config loss fraction days pct ogr).
  intros Hrow Hh.
  destruct (frame_row_started cfg i row _ h Hrow Hh) as (st & Hst & Heq).
  destruct (day_body cfg i st empty_row) as [row' r] eqn:Hday.
  cbn [fst] in Heq. subst row'.
  destruct (day_body_interval cfg i st row r Hday) as [Hval _].
  rewrite (Hval h Hh).
  destruct i as [| k].
  - exfalso. rewrite state_before_0 in Hst.
    apply initial_state_inv in Hst.
    destruct Hst as (_ & _ & _ & Hu & Hs & _).
    destruct (day_body_harvest_cond cfg 0 st row r h Hday Hh)
      as (agr & _ & Hagr & _ & Hfire).
    rewrite Hu, Hs in Hfire. cbn in Hfire. lra.
  - apply state_before_S_inv in Hst. destruct Hst as (st0 & row0 & _ & Hday0).
    destruct (day_body_interval cfg k st0 row0 (Ok st) Hday0) as [_ Hpos].
    specialize (Hpos st eq_refl).
    apply le_INR in Hpos. cbn in Hpos. exact Hpos.
Qed.

(** C7.  When the calibration run has returned its frame:
    if no harvest interval was ever recorded (the run never harvested),
    or no food harvest was, the calibrator returns [None] and does not
    raise; when both a last harvest interval and a last food-harvest
    mass are there, it returns the food-harvest mass divided by the
    interval, and that interval is at least one day. *)
Theorem determine_average_productivity_spec (loss : R) (fraction : pyval)
  (days : nat) (pct ogr : R) (df : DataFrame) :
  seaweed_growth (calibration_config loss fraction days pct ogr) = Ok df ->
  ((forall row, In row df -> row col_harvest_intervall = None) ->
   determine_average_productivity loss fraction days pct ogr = Ok None) /\
  ((forall row, In row df -> row col_harvest_for_food = None) ->
   determine_average_productivity loss fraction days pct ogr = Ok None) /\
  (forall interval food,
     last_valid (map (fun row => row col_harvest_intervall) df)
     = Some interval ->
     last_valid (map (fun row => row col_harvest_for_food) df) = Some food ->
     1 <= interval /\
     determine_average_productivity loss fraction days pct ogr
     = Ok (Some (food / interval))).
Proof.
  intros Hrun.
  assert (Hnone : forall c,
             (forall row, In row df -> row c = None) ->
             last_valid (map (fun row => row c) df) = None).
  { intros c H. apply last_valid_None. intros x Hx.
    apply in_map_iff in Hx. destruct Hx as (row & <- & Hrow). now apply H. }
  unfold determine_average_productivity. rewrite Hrun.
  unfold stable_values. rewrite !loc_last_valid_eq.
  split; [| split].
  - intros H. rewrite (Hnone _ H). reflexivity.
  - intros H. rewrite (Hnone _ H).
    destruct (last_valid (map (fun row => row col_harvest_intervall) df));
      reflexivity.
  - intros interval food Hi Hf. rewrite Hi, Hf. split; [| reflexivity].
    apply last_valid_In, in_map_iff in Hi.
    destruct Hi as (row & Hcell & Hrow).
    apply In_nth_error in Hrow. destruct Hrow as [i Hrow].
    apply seaweed_growth_Ok_inv in Hrun. destruct Hrun as [-> _].
    eapply calibration_interval_positive; eassumption.
Qed.

(** *** A calibration run that does harvest

    With [optimal_growth_rate * growth_rate_fraction = 100] the biomass
    grows by the factor [1 + self_shading] a day, which is at least 10/9
    as long as the density is below 3600 t/km2; a hundred days are then
    more than enough to reach the first harvest. *)

Lemma exp_lower_bound (y : R) : - (1 + 1) <= y -> / 9 <= exp y.
Proof.
  intros Hy.
  assert (H : exp (1 + 1) <= 9).
  { rewrite exp_plus. pose proof exp_le_3. pose proof (exp_pos 1). nra. }
  pose proof (exp_pos (1 + 1)).
  apply Rle_trans with (exp (- (1 + 1))).
  - rewrite exp_Ropp. apply Rinv_le_contravar; assumption.
  - destruct (Req_dec (- (1 + 1)) y) as [<- | Hne]; [lra |].
    left. apply exp_increasing. lra.
Qed.

Lemma self_shading_lower (x v : R) :
  x < 3.6 -> self_shading x = Ok v -> / 9 <= v.
Proof.
  intros Hx H. unfold self_shading in H.
  destruct (Rltb 0 x); [| discriminate].
  destruct (Rltb x 0.4) eqn:Hlow; inversion H; subst; [lra |].
  apply Rltb_false_iff in Hlow.
  pose proof (exp_lower_bound (- 0.513 * (x - 0.4)) ltac:(lra)) as Hexp.
  pose proof underflow_bound_small.
  rewrite math_exp_exact; lra.
Qed.

Lemma pow_10_9_100 : 3600 < (10 / 9) ^ 100.
Proof.
  assert (H2 : 1.23 <= (10 / 9) ^ 2) by (simpl; lra).
  assert (H4 : 1.51 <= (10 / 9) ^ 4)
    by (replace 4%nat with (2 + 2)%nat by reflexivity; rewrite pow_add; nra).
  assert (H8 : 2.28 <= (10 / 9) ^ 8)
    by (replace 8%nat with (4 + 4)%nat by reflexivity; rewrite pow_add; nra).
  assert (H16 : 5.19 <= (10 / 9) ^ 16)
    by (replace 16%nat with (8 + 8)%nat by reflexivity; rewrite pow_add; nra).
  assert (H32 : 26.9 <= (10 / 9) ^ 32)
    by (replace 32%nat with (16 + 16)%nat by reflexivity; rewrite pow_add; nra).
  assert (H64 : 723 <= (10 / 9) ^ 64)
    by (replace 64%nat with (32 + 32)%nat by reflexivity; rewrite pow_add; nra).
  replace 100%nat with (64 + (32 + 4))%nat by reflexivity.
  rewrite !pow_add. nra.
Qed.

Section Calibration.

Variables (loss f pct ogr : R) (days : nat).
Hypothesis Hloss : 0 <= loss <= 100.
Hypothesis Hrate : ogr * f = 100.

Local Abbreviation cal := (calibration_config loss (PyFloat f) days pct ogr).

(** One day of this calibration run, from a state on the unit area. *)
Lemma calibration_day (d : nat) (st : State) :
  current_area_built st = 1 -> current_area_used st = 1 ->
  module_area st = 0 ->
  0 < current_density st -> 0 < current_seaweed st ->
  exists row st',
    day_body cal d st empty_row = (row, Ok st') /\
    (current_area_built st' = 1 /\ current_area_used st' = 1 /\
     module_area st' = 0 /\
     0 < current_density st' /\ 0 < current_seaweed st') /\
    (forall h, row col_harvest_intervall = Some h ->
               exists food, row col_harvest_for_food = Some food) /\
    (current_density st < 3600 ->
     row col_harvest_intervall = None ->
     10 / 9 * current_seaweed st <= current_seaweed st' /\
     current_density st' = current_seaweed st' /\
     current_density st' < 3600).
Proof.
  intros Hb Hu Hm Hd Hs.
  destruct (self_shading_ok (current_density st / 1000) ltac:(lra))
    as (ssf & Hss & Hrange).
  assert (Hlow : current_density st < 3600 -> / 9 <= ssf).
  { intros Hlt. eapply self_shading_lower; [| exact Hss]. lra. }
  assert (Hprod : ogr * f * ssf = 100 * ssf) by (rewrite Hrate; ring).
  destruct st as [m b u s dn cum need iv]. cbn in Hb, Hu, Hm, Hd, Hs, Hss, Hlow.
  subst b u m.
  destruct (day_body cal d _ empty_row) as [row [st' | e |]] eqn:H.
  - exists row, st'. split; [reflexivity |].
    body_unfold H. cbn in H. rewrite Hss in H. rewrite ?Hprod in H.
    body_split H; try discriminate H; to_prop; subst; cells; try lra;
      try match goal with
          | Hdef : _ * (1 - loss / 100) < (1 - 1) * 1200 |- _ =>
              exfalso; nra
          end;
      (split; [repeat split; try lra; nra |]);
      (split; [intros; cells; eexists; reflexivity |]);
      intros Hlt Hnone; cells;
      specialize (Hlow Hlt); repeat split; try lra; nra.
  - exfalso.
    body_unfold H. cbn in H. rewrite Hss in H. rewrite ?Hprod in H.
    body_split H; try discriminate H; to_prop; to_prop_neg; subst; cells;
      try lra; try nra.
  - exfalso.
    body_unfold H. cbn in H. rewrite Hss in H. rewrite ?Hprod in H.
    body_split H; try discriminate H; to_prop; to_prop_neg; subst; cells;
      try lra; try nra.
Qed.

Lemma calibration_states (n : nat) :
  exists st,
    state_before cal n = Ok st /\
    current_area_built st = 1 /\ current_area_used st = 1 /\
    module_area st = 0 /\
    0 < current_density st /\ 0 < current_seaweed st.
Proof.
  induction n as [| n (st & Hst & Hb & Hu & Hm & Hd & Hs)].
  - destruct (initial_state_ok cal) as (st & Hst & _); [cbn; lra |].
    exists st. rewrite state_before_0. split; [exact Hst |].
    apply initial_state_inv in Hst.
    destruct Hst as (_ & -> & -> & -> & -> & -> & _). cbn.
    repeat split; lra.
  - destruct (calibration_day n st Hb Hu Hm Hd Hs)
      as (row & st' & Hday & Hcal & _).
    exists st'. split; [| exact Hcal].
    rewrite state_before_S, Hst, Hday. reflexivity.
Qed.

(** Until the first harvest the biomass grows at least geometrically. *)
Lemma calibration_until_harvest (n : nat) :
  (n <= days)%nat ->
  (exists i row h,
     nth_error (fst (seaweed_growth_frame cal)) i = Some row /\
     row col_harvest_intervall = Some h) \/
  (exists st,
     state_before cal n = Ok st /\
     (current_area_built st = 1 /\ current_area_used st = 1 /\
      module_area st = 0 /\
      0 < current_density st /\ 0 < current_seaweed st) /\
     (10 / 9) ^ n <= current_seaweed st /\
     current_density st = current_seaweed st /\
     current_density st < 3600).
Proof.
  induction n as [| n IH]; intros Hn.
  - right. destruct (initial_state_ok cal) as (st & Hst & _); [cbn; lra |].
    exists st. rewrite state_before_0. split; [exact Hst |].
    apply initial_state_inv in Hst.
    destruct Hst as (_ & -> & -> & -> & -> & -> & _). cbn.
    repeat split; lra.
  - destruct IH as [Hleft | (st & Hst & Hcal & Hpow & Hden & Hlt)];
      [lia | now left |].
    destruct Hcal as (Hb & Hu & Hm & Hd & Hs).
    destruct (calibration_day n st Hb Hu Hm Hd Hs)
      as (row & st' & Hday & Hcal' & _ & Hgrow).
    assert (Hrow : nth_error (fst (seaweed_growth_frame cal)) n = Some row).
    { rewrite (frame_row_at cal n st); [now rewrite Hday | cbn; lia | exact Hst]. }
    destruct (row col_harvest_intervall) as [h |] eqn:Hh.
    + left. now exists n, row, h.
    + right. exists st'. destruct (Hgrow Hlt eq_refl) as (Hstep & Hden' & Hlt').
      split; [rewrite state_before_S, Hst, Hday; reflexivity |].
      split; [exact Hcal' |]. split; [| split; assumption].
      cbn [pow]. nra.
Qed.

(** A run of a hundred days or more returns its frame, with a last
    harvest interval and a last food-harvest mass in it. *)
Lemma calibration_harvests :
  (100 <= days)%nat ->
  exists df interval food,
    seaweed_growth cal = Ok df /\
    last_valid (map (fun row => row col_harvest_intervall) df)
    = Some interval /\
    last_valid (map (fun row => row col_harvest_for_food) df) = Some food.
Proof.
  intros Hdays.
  assert (Hrun : seaweed_growth cal = Ok (fst (seaweed_growth_frame cal))).
  { rewrite seaweed_growth_outcome.
    destruct (calibration_states (days_to_run cal)) as (st & -> & _).
    reflexivity. }
  assert (Hharvest : exists i row h,
             nth_error (fst (seaweed_growth_frame cal)) i = Some row /\
             row col_harvest_intervall = Some h).
  { destruct (calibration_until_harvest 100 Hdays)
      as [H | (st & _ & _ & Hpow & Hden & Hlt)]; [exact H |].
    exfalso. pose proof pow_10_9_100. lra. }
  destruct Hharvest as (i & row & h & Hrow & Hh).
  assert (Hfood : exists food, row col_harvest_for_food = Some food).
  { destruct (frame_row_started cal i row _ h Hrow Hh) as (st & Hst & Heq).
    destruct (calibration_states i) as (st0 & Hst0 & Hb & Hu & Hm & Hd & Hs).
    assert (st0 = st) by congruence. subst st0.
    destruct (calibration_day i st Hb Hu Hm Hd Hs)
      as (row' & st' & Hday & _ & Hsurplus & _).
    rewrite Hday in Heq. cbn [fst] in Heq. subst row'.
    exact (Hsurplus h Hh). }
  destruct Hfood as [food Hfood].
  assert (Hsome : forall c v,
             row c = Some v ->
             exists w,
               last_valid
                 (map (fun r => r c) (fst (seaweed_growth_frame cal)))
               = Some w).
  { intros c v Hc.
    destruct (last_valid
                (map (fun r => r c) (fst (seaweed_growth_frame cal))))
      as [w |] eqn:Hlast; [now exists w |].
    exfalso. rewrite last_valid_None in Hlast.
    assert (Hin : In (row c)
                    (map (fun r => r c) (fst (seaweed_growth_frame cal)))).
    { apply (in_map (fun r : Row => r c)). eapply nth_error_In. exact Hrow. }
    apply Hlast in Hin. congruence. }
  destruct (Hsome _ _ Hh) as [interval Hi].
  destruct (Hsome _ _ Hfood) as [food' Hf].
  exists (fst (seaweed_growth_frame cal)), interval, food'. auto.
Qed.

End Calibration.

Lemma determine_average_productivity_spec_witness :
  (exists df,
     seaweed_growth (calibration_config 0 (PyFloat 0) 1 100 5) = Ok df /\
     (forall row, In row df -> row col_harvest_intervall = None) /\
     determine_average_productivity 0 (PyFloat 0) 1 100 5 = Ok None) /\
  (exists df interval food,
     seaweed_growth (calibration_config 0 (PyFloat 1) 100 100 100) = Ok df /\
     last_valid (map (fun row => row col_harvest_intervall) df)
     = Some interval /\
     last_valid (map (fun row => row col_harvest_for_food) df) = Some food /\
     1 <= interval /\
     determine_average_productivity 0 (PyFloat 1) 100 100 100
     = Ok (Some (food / interval))).
Proof.
  split.
  - assert (H : exists df,
               seaweed_growth (calibration_config 0 (PyFloat 0) 1 100 5)
               = Ok df /\
               (forall row, In row df -> row col_harvest_intervall = None)).
    { run_engine. eexists. split; [reflexivity |].
      intros row [<- | []]. reflexivity. }
    destruct H as (df & Hrun & Hnone).
    exists df. repeat split; try assumption.
    destruct (determine_average_productivity_spec 0 (PyFloat 0) 1 100 5 df Hrun)
      as (Hnever & _).
    exact (Hnever Hnone).
  - destruct (calibration_harvests 0 1 100 100 100%nat) as (df & interval & food & Hrun & Hi & Hf);
      [lra | lra | lia |].
    exists df, interval, food.
    destruct (determine_average_productivity_spec 0 (PyFloat 1) 100 100 100
                df Hrun) as (_ & _ & Hboth).
    destruct (Hboth interval food Hi Hf) as [Hpos Hval].
    repeat split; assumption.
Defined.

(** * Further properties of the engine *)

(** ** One day, continued *)

Section DayShape.

Variable cfg : Config.
Variables (d : nat) (st : State).

(** The cells of a day that ran to its end: the builder's cell and a
    multiplier of [0, 2] are always there; the harvest cells are there
    exactly on a harvest day. *)
Lemma day_body_shape (row : Row) (st' : State) :
  day_body cfg d st empty_row = (row, Ok st') ->
  (exists a, row col_new_module_area_per_day = Some a) /\
  (exists a, row col_actual_growth_rate_multiplicator = Some a /\
             0 <= a <= 2) /\
  (row col_harvest_intervall = None ->
   row col_seaweed_remaining_to_grow = None /\
   row col_harvest_wet = None /\
   row col_harvest_wet_with_loss = None /\
   row col_harvest_for_food = None /\
   row col_new_area_used = None /\
   harvest_intervall st' = S (harvest_intervall st) /\
   current_area_used st' = current_area_used st) /\
  (forall h, row col_harvest_intervall = Some h ->
   (exists x, row col_seaweed_remaining_to_grow = Some x) /\
   (exists x, row col_harvest_wet = Some x) /\
   (exists x, row col_harvest_wet_with_loss = Some x) /\
   (exists x, row col_new_area_used = Some x) /\
   harvest_intervall st' = 1%nat /\
   0 <= harvest_loss cfg <= 100 /\
   min_density cfg <> 0).
Proof.
  intros H. day_cases H; cells;
    (split; [eexists; reflexivity |]);
    (split; [eexists; split; [reflexivity | lra] |]);
    (split; [intros; cells; auto 10 |]);
    intros; cells; repeat split; try (eexists; reflexivity);
    try assumption; lra.
Qed.

(** Biomass is conserved by a harvest: what is in the water afterwards,
    the food and the loss add up to the grown biomass.  The surplus
    branch leaves the used area at [min_density]. *)
Lemma day_body_balance (row : Row) (st' : State) (h : R) :
  day_body cfg d st empty_row = (row, Ok st') ->
  row col_harvest_intervall = Some h ->
  exists r w l,
    row col_seaweed_remaining_to_grow = Some r /\
    row col_harvest_wet = Some w /\
    row col_harvest_wet_with_loss = Some l /\
    current_seaweed st'
    + match row col_harvest_for_food with Some f => f | None => 0 end
    + (w - l) = w + r /\
    (forall f, row col_harvest_for_food = Some f ->
       current_seaweed st' = current_area_used st' * min_density cfg /\
       f = l - current_seaweed_need st').
Proof.
  intros H Hh. day_cases H; cells;
    do 3 eexists; (split; [reflexivity |]); (split; [reflexivity |]);
    (split; [reflexivity |]);
    rewrite ?mul_div_cancel by assumption;
    (split; [lra | intros; cells; split; lra]).
Qed.

(** The assertion on the multiplier. *)
Lemma day_body_envelope (row : Row) (r : result State) (a : R) :
  day_body cfg d st empty_row = (row, r) ->
  row col_actual_growth_rate_multiplicator = Some a ->
  ~ 0 <= a <= 2 ->
  r = Raise AssertionError.
Proof.
  intros H Ha Hout. day_cases H; cells; try reflexivity; exfalso; lra.
Qed.

(** Up to the lag the builder writes 0. *)
Lemma day_body_lag_cell (row : Row) (r : result State) :
  day_body cfg d st empty_row = (row, r) ->
  INR d <= initial_lag cfg ->
  row col_new_module_area_per_day = Some 0.
Proof.
  intros H Hlag. day_cases H; cells; try reflexivity; exfalso; lra.
Qed.

(** With a build rate and a usable percentage that are not negative,
    the built area does not shrink. *)
Lemma day_body_built_monotone (row : Row) (st' : State) :
  0 <= percent_usable_for_growth cfg ->
  0 <= module_area st ->
  day_body cfg d st empty_row = (row, Ok st') ->
  current_area_built st <= current_area_built st' /\ 0 <= module_area st'.
Proof.
  intros Hpct Hm H.
  pose proof (seaweed_farm_area_per_day_pos d) as Hpos.
  assert (H1 : 0 <= seaweed_farm_area_per_day (INR d)
                    * (percent_usable_for_growth cfg / 100))
    by (apply Rmult_le_pos; lra).
  assert (H2 : 0 <= module_area st * (percent_usable_for_growth cfg / 100))
    by (apply Rmult_le_pos; lra).
  day_cases H; cells; split; lra.
Qed.

(** The build rate of the day: the logistic curve once the rate is
    positive, the rate itself otherwise. *)
Lemma day_body_mode (row : Row) (r : result State) :
  day_body cfg d st empty_row = (row, r) ->
  (forall a, row col_new_module_area_per_day = Some a ->
     a = 0 \/
     (0 < module_area st /\ a = seaweed_farm_area_per_day (INR d)) \/
     (module_area st <= 0 /\ a = module_area st)) /\
  (forall st', r = Ok st' ->
     (0 < module_area st ->
      module_area st' = seaweed_farm_area_per_day (INR d)) /\
     (module_area st <= 0 -> module_area st' = module_area st)).
Proof.
  intros H. day_cases H; cells; split; intros; cells; auto;
    try match goal with
        | Hr : Raise _ = Ok _ |- _ => discriminate Hr
        | Hr : ZeroDivision = Ok _ |- _ => discriminate Hr
        end;
    match goal with
    | Hr : Ok _ = Ok _ |- _ =>
        inversion Hr; subst; cbn; split; intros;
        try reflexivity; exfalso; lra
    end.
Qed.


(** Where a day divides by zero: at the density, by a used area of 0,
    or in the harvest, by a [min_density] of 0. *)
Lemma day_body_division (row : Row) :
  day_body cfg d st empty_row = (row, ZeroDivision) ->
  current_area_used st = 0 \/
  ((exists h, row col_harvest_intervall = Some h) /\ min_density cfg = 0).
Proof.
  intros H. day_cases H; to_prop_neg;
    first [left; assumption
          | right; split; [eexists; reflexivity | assumption]].
Qed.

(** A multiplier outside [0, 2] is written, and the day then stops at
    the assertion of line 154. *)
Lemma day_body_overgrowth (ssf f : R) :
  self_shading (current_density st / 1000) = Ok ssf ->
  (growth_rate_fraction cfg = PyFloat f \/
   exists l, growth_rate_fraction cfg = PyList l /\
             forallb in_unit_interval l = true /\
             nth_error l d = Some f) ->
  ~ 0 <= 1 + optimal_growth_rate cfg * f * ssf / 100 <= 2 ->
  exists row,
    day_body cfg d st empty_row = (row, Raise AssertionError) /\
    row col_actual_growth_rate_multiplicator
    = Some (1 + optimal_growth_rate cfg * f * ssf / 100) /\
    forall c, c <> col_new_module_area_per_day ->
              c <> col_actual_growth_rate_multiplicator -> row c = None.
Proof.
  intros Hss Hfrac Hout.
  pose proof (self_shading_range _ _ Hss) as (_ & Hrange).
  assert (Hunit : in_unit_interval ssf = true)
    by (apply in_unit_interval_iff; lra).
  assert (Hassert : Rleb (1 + optimal_growth_rate cfg * f * ssf / 100) 2
                    && Rleb 0 (1 + optimal_growth_rate cfg * f * ssf / 100)
                    = false).
  { apply andb_false_iff.
    destruct (Rle_dec (1 + optimal_growth_rate cfg * f * ssf / 100) 2).
    - right. apply Rleb_false. lra.
    - left. apply Rleb_false. lra. }
  cbv [day_body build_area growth_multiplier harvest bind ret df_loc
       assert lift raise].
  rewrite Hss.
  destruct Hfrac as [Hg | (l & Hg & Hall & Hnth)]; rewrite Hg;
    [rewrite Hunit | rewrite Hall, Hnth];
    rewrite Hassert;
    destruct (Rltb (initial_lag cfg) (INR d));
    try destruct (Rltb (current_area_built st) (max_area cfg));
    eexists; (split; [reflexivity |]);
    (split; [cbn; reflexivity
            | intros c Hc1 Hc2; destruct c;
              first [reflexivity | congruence]]).
Qed.

End DayShape.

(** ** The frame a run returns *)

(** Every row of a returned frame belongs to a day that ran to its end. *)
Lemma returned_frame_row (cfg : Config) (df : DataFrame) (i : nat) (row : Row) :
  seaweed_growth cfg = Ok df ->
  nth_error df i = Some row ->
  exists st st',
    state_before cfg i = Ok st /\
    day_body cfg i st empty_row = (row, Ok st') /\
    state_before cfg (S i) = Ok st'.
Proof.
  intros Hrun Hrow. apply seaweed_growth_Ok_inv in Hrun.
  destruct Hrun as [-> [stn Hn]].
  pose proof (frame_row cfg i row Hrow) as [Hi Hst].
  destruct (state_before_ok cfg (S i) (days_to_run cfg) stn ltac:(lia) Hn)
    as [st' Hst'].
  destruct (state_before_S_inv cfg i st' Hst') as (st & row' & Hsti & Hday).
  rewrite Hsti in Hst. rewrite Hday in Hst. cbn [fst] in Hst. subst row'.
  exists st, st'. auto.
Qed.

(** The run of [cfg_doubling], day by day. *)
Lemma doubling_run :
  exists r0 r1 r2 r3 r4,
    seaweed_growth_frame cfg_doubling
    = ([r0; r1; r2; r3; r4], snd (seaweed_growth_frame cfg_doubling)) /\
    seaweed_growth cfg_doubling = Ok [r0; r1; r2; r3; r4] /\
    (r0 col_harvest_intervall = None /\
     r0 col_actual_growth_rate_multiplicator = Some 2 /\
     r0 col_current_density = Some 20) /\
    (r1 col_harvest_intervall = Some 1 /\
     r1 col_actual_growth_rate_multiplicator = Some 2 /\
     r1 col_seaweed_remaining_to_grow = Some 12 /\
     r1 col_harvest_wet = Some 28 /\
     r1 col_harvest_wet_with_loss = Some 28 /\
     r1 col_harvest_for_food = Some 28 /\
     r1 col_current_seaweed_need = Some 0 /\
     r1 col_current_area_used = Some 1 /\
     r1 col_current_seaweed = Some 12 /\
     r1 col_current_density = Some 40) /\
    (r2 col_harvest_intervall = None /\
     r2 col_actual_growth_rate_multiplicator = Some 2 /\
     r2 col_current_density = Some 24) /\
    (r3 col_harvest_intervall = Some 2 /\
     r3 col_current_density = Some 48) /\
    r4 col_harvest_intervall = None.
Proof.
  cbv [cfg_doubling]. run_engine. do 5 eexists.
  split; [reflexivity |]. split; [reflexivity |].
  repeat split; cell; reflexivity.
Qed.

Section BuildCell.

Variable cfg : Config.
Variables (d : nat) (st : State).

(** On a day on which the builder works, the cell holds the rate that
    was used. *)
Lemma day_body_build_cell (row : Row) (r : result State) :
  day_body cfg d st empty_row = (row, r) ->
  initial_lag cfg < INR d ->
  current_area_built st < max_area cfg ->
  (0 < module_area st ->
   row col_new_module_area_per_day = Some (seaweed_farm_area_per_day (INR d))) /\
  (module_area st <= 0 ->
   row col_new_module_area_per_day = Some (module_area st)).
Proof.
  intros H Hlag Hlt. day_cases H; cells; split; intros;
    try reflexivity; exfalso; lra.
Qed.

End BuildCell.

(** A day that raises ends the run with its exception. *)
Lemma day_raise_run (cfg : Config) (i : nat) (st : State) (row : Row) (e : exn) :
  (i < days_to_run cfg)%nat ->
  state_before cfg i = Ok st ->
  day_body cfg i st empty_row = (row, Raise e) ->
  seaweed_growth cfg = Raise e.
Proof.
  intros Hi Hst Hday. rewrite seaweed_growth_outcome.
  rewrite (state_before_raise cfg (S i) (days_to_run cfg) e); auto.
  rewrite state_before_S, Hst, Hday. reflexivity.
Qed.

(** The rows of [cfg_clamp]. *)
Lemma clamp_run :
  exists r0 r1 r2,
    fst (seaweed_growth_frame cfg_clamp) = [r0; r1; r2] /\
    (r0 col_new_module_area_per_day = Some 0 /\
     r0 col_current_area_built = Some 100 /\
     r0 col_current_area_used = Some 100) /\
    (r1 col_new_module_area_per_day = Some (seaweed_farm_area_per_day 1) /\
     r1 col_current_area_built = Some 100.5 /\
     r1 col_current_area_used = Some 100) /\
    (r2 col_new_module_area_per_day = Some 0 /\
     r2 col_current_area_built = Some 100.5).
Proof.
  pose proof (seaweed_farm_area_per_day_gt_1 0 ltac:(lra)) as A0.
  pose proof (seaweed_farm_area_per_day_gt_1 1 ltac:(lra)) as A1.
  pose proof (seaweed_farm_area_per_day_gt_1 (1 + 1) ltac:(lra)) as A2.
  run_engine. do 3 eexists. split; [reflexivity |].
  repeat split; cell; reflexivity.
Qed.

(** The rows of [cfg_unbuild]. *)
Lemma unbuild_run :
  exists r0 r1,
    fst (seaweed_growth_frame cfg_unbuild) = [r0; r1] /\
    r1 col_new_module_area_per_day = Some (-1).
Proof.
  run_engine. do 2 eexists. split; [reflexivity |]. cell.
Qed.

Section Growth.

Variable cfg : Config.
Variables (d : nat) (st : State).

(** A day without a harvest multiplies the biomass by the multiplier. *)
Lemma day_body_growth (row : Row) (st' : State) :
  day_body cfg d st empty_row = (row, Ok st') ->
  row col_harvest_intervall = None ->
  exists agr,
    row col_actual_growth_rate_multiplicator = Some agr /\
    0 <= agr <= 2 /\
    current_seaweed st' = current_seaweed st * agr.
Proof.
  intros H Hnone. day_cases H; cells;
    eexists; (split; [reflexivity |]); (split; [lra | reflexivity]).
Qed.

End Growth.

(** *** The calibration run with a constant fraction

    [c = optimal_growth_rate * growth_rate_fraction] between 0 and 100
    keeps the multiplier between 1 and 2, so that no assertion fails. *)

Section CalibrationFloat.

Variables (loss f pct ogr : R) (days : nat).
Hypothesis Hloss : 0 <= loss <= 100.
Hypothesis Hrate : 0 <= ogr * f <= 100.

Local Abbreviation calf := (calibration_config loss (PyFloat f) days pct ogr).

Lemma calibration_float_day (d : nat) (st : State) :
  current_area_built st = 1 -> current_area_used st = 1 ->
  module_area st = 0 ->
  0 < current_density st -> 0 < current_seaweed st ->
  exists row st',
    day_body calf d st empty_row = (row, Ok st') /\
    (current_area_built st' = 1 /\ current_area_used st' = 1 /\
     module_area st' = 0 /\
     0 < current_density st' /\ 0 < current_seaweed st') /\
    (forall h, row col_harvest_intervall = Some h ->
               exists food, row col_harvest_for_food = Some food) /\
    (current_density st < 3600 ->
     row col_harvest_intervall = None ->
     (1 + ogr * f / 900) * current_seaweed st <= current_seaweed st' /\
     current_density st' = current_seaweed st' /\
     current_density st' < 3600).
Proof.
  intros Hb Hu Hm Hd Hs.
  destruct (self_shading_ok (current_density st / 1000) ltac:(lra))
    as (ssf & Hss & Hrange).
  assert (Hlow : current_density st < 3600 -> / 9 <= ssf).
  { intros Hlt. eapply self_shading_lower; [| exact Hss]. lra. }
  set (c := ogr * f) in *.
  assert (Hq : 0 <= c * ssf <= 100) by nra.
  assert (Hqlow : current_density st < 3600 -> c / 9 <= c * ssf)
    by (intros Hlt; specialize (Hlow Hlt); nra).
  clear Hlow.
  set (q := c * ssf) in *.
  assert (Hprod : ogr * f * ssf = q) by reflexivity.
  clearbody q. clearbody c.
  destruct st as [m b u s dn cum need iv]. cbn in Hb, Hu, Hm, Hd, Hs, Hss, Hqlow.
  subst b u m.
  destruct (day_body calf d _ empty_row) as [row [st' | e |]] eqn:H.
  - exists row, st'. split; [reflexivity |].
    body_unfold H. cbn in H. rewrite Hss in H. rewrite ?Hprod in H.
    body_split H; try discriminate H; to_prop; subst; cells; try lra;
      try match goal with
          | Hdef : _ * (1 - loss / 100) < (1 - 1) * 1200 |- _ =>
              exfalso; nra
          end;
      (split; [repeat split; try lra; nra |]);
      (split; [intros; cells; eexists; reflexivity |]);
      intros Hlt Hnone; cells;
      specialize (Hqlow Hlt); repeat split; try lra; nra.
  - exfalso.
    body_unfold H. cbn in H. rewrite Hss in H. rewrite ?Hprod in H.
    body_split H; try discriminate H; to_prop; to_prop_neg; subst; cells;
      try lra; try nra.
  - exfalso.
    body_unfold H. cbn in H. rewrite Hss in H. rewrite ?Hprod in H.
    body_split H; try discriminate H; to_prop; to_prop_neg; subst; cells;
      try lra; try nra.
Qed.

Lemma calibration_float_states (n : nat) :
  exists st,
    state_before calf n = Ok st /\
    current_area_built st = 1 /\ current_area_used st = 1 /\
    module_area st = 0 /\
    0 < current_density st /\ 0 < current_seaweed st.
Proof.
  induction n as [| n (st & Hst & Hb & Hu & Hm & Hd & Hs)].
  - destruct (initial_state_ok calf) as (st & Hst & _); [cbn; lra |].
    exists st. rewrite state_before_0. split; [exact Hst |].
    apply initial_state_inv in Hst.
    destruct Hst as (_ & -> & -> & -> & -> & -> & _). cbn.
    repeat split; lra.
  - destruct (calibration_float_day n st Hb Hu Hm Hd Hs)
      as (row & st' & Hday & Hcal & _).
    exists st'. split; [| exact Hcal].
    rewrite state_before_S, Hst, Hday. reflexivity.
Qed.

Lemma calibration_float_until_harvest (n : nat) :
  (n <= days)%nat ->
  (exists i row h,
     nth_error (fst (seaweed_growth_frame calf)) i = Some row /\
     row col_harvest_intervall = Some h) \/
  (exists st,
     state_before calf n = Ok st /\
     (current_area_built st = 1 /\ current_area_used st = 1 /\
      module_area st = 0 /\
      0 < current_density st /\ 0 < current_seaweed st) /\
     (1 + ogr * f / 900) ^ n <= current_seaweed st /\
     current_density st = current_seaweed st /\
     current_density st < 3600).
Proof.
  induction n as [| n IH]; intros Hn.
  - right. destruct (initial_state_ok calf) as (st & Hst & _); [cbn; lra |].
    exists st. rewrite state_before_0. split; [exact Hst |].
    apply initial_state_inv in Hst.
    destruct Hst as (_ & -> & -> & -> & -> & -> & _). cbn.
    repeat split; lra.
  - destruct IH as [Hleft | (st & Hst & Hcal & Hpow & Hden & Hlt)];
      [lia | now left |].
    destruct Hcal as (Hb & Hu & Hm & Hd & Hs).
    destruct (calibration_float_day n st Hb Hu Hm Hd Hs)
      as (row & st' & Hday & Hcal' & _ & Hgrow).
    assert (Hrow : nth_error (fst (seaweed_growth_frame calf)) n = Some row).
    { rewrite (frame_row_at calf n st); [now rewrite Hday | cbn; lia | exact Hst]. }
    destruct (row col_harvest_intervall) as [h |] eqn:Hh.
    + left. now exists n, row, h.
    + right. exists st'. destruct (Hgrow Hlt eq_refl) as (Hstep & Hden' & Hlt').
      split; [rewrite state_before_S, Hst, Hday; reflexivity |].
      split; [exact Hcal' |]. split; [| split; assumption].
      cbn [pow].
      apply Rle_trans with ((1 + ogr * f / 900) * current_seaweed st);
        [| exact Hstep].
      apply Rmult_le_compat_l; [lra | exact Hpow].
Qed.

(** The run returns its frame; and it holds a harvest with food once
    [(1 + c / 900) ^ days] exceeds 3600. *)
Lemma calibration_float_returns :
  seaweed_growth calf = Ok (fst (seaweed_growth_frame calf)).
Proof.
  rewrite seaweed_growth_outcome.
  destruct (calibration_float_states (days_to_run calf)) as (st & -> & _).
  reflexivity.
Qed.

Lemma calibration_float_harvests :
  3600 < (1 + ogr * f / 900) ^ days ->
  exists i row h food,
    nth_error (fst (seaweed_growth_frame calf)) i = Some row /\
    row col_harvest_intervall = Some h /\
    row col_harvest_for_food = Some food.
Proof.
  intros Hpow.
  destruct (calibration_float_until_harvest days (le_n _))
    as [(i & row & h & Hrow & Hh) | (st & _ & _ & Hp & Hden & Hlt)];
    [| exfalso; lra].
  destruct (frame_row_started calf i row _ h Hrow Hh) as (st & Hst & Heq).
  destruct (calibration_float_states i) as (st0 & Hst0 & Hb & Hu & Hm & Hd & Hs).
  assert (st0 = st) by congruence. subst st0.
  destruct (calibration_float_day i st Hb Hu Hm Hd Hs)
    as (row' & st' & Hday & _ & Hsurplus & _).
  rewrite Hday in Heq. cbn [fst] in Heq. subst row'.
  destruct (Hsurplus h Hh) as [food Hfood].
  now exists i, row, h, food.
Qed.

End CalibrationFloat.

(** X1.  A run that returns without having divided by zero gives one
    record per day, without gaps: the frame has [days_to_run] rows, and
    every row holds the builder's cell, a multiplier of [0, 2] and the
    six end-of-day cells. *)
Theorem returned_frame_complete (cfg : Config) (df : DataFrame) :
  seaweed_growth cfg = Ok df ->
  length df = days_to_run cfg /\
  forall i row,
    nth_error df i = Some row ->
    (exists a, row col_new_module_area_per_day = Some a) /\
    (exists a, row col_actual_growth_rate_multiplicator = Some a /\
               0 <= a <= 2) /\
    (exists x, row col_current_seaweed_need = Some x) /\
    (exists x, row col_current_area_built = Some x) /\
    (exists x, row col_current_area_used = Some x) /\
    (exists x, row col_current_seaweed = Some x) /\
    (exists x, row col_current_density = Some x) /\
    (exists x, row col_cumulative_harvest_for_food = Some x).
Proof.
  intros Hrun. split.
  - pose proof (seaweed_growth_Ok_inv cfg df Hrun) as [-> [stn Hn]].
    destruct (state_before_ok cfg 0 (days_to_run cfg) stn ltac:(lia) Hn)
      as [st0 H0].
    rewrite state_before_0 in H0. exact (frame_length cfg st0 H0).
  - intros i row Hrow.
    destruct (returned_frame_row cfg df i row Hrun Hrow)
      as (st & st' & _ & Hday & _).
    pose proof (day_body_complete cfg i st row st' Hday)
      as (Hb & Hu & Hs & Hd & Hc & Hn).
    pose proof (day_body_shape cfg i st row st' Hday) as (Hm & Ha & _).
    repeat split; try assumption; eexists; eassumption.
Qed.

Lemma returned_frame_complete_witness :
  exists df,
    seaweed_growth cfg_doubling = Ok df /\
    length df = days_to_run cfg_doubling /\
    forall i row,
      nth_error df i = Some row ->
      (exists a, row col_new_module_area_per_day = Some a) /\
      (exists a, row col_actual_growth_rate_multiplicator = Some a /\
                 0 <= a <= 2) /\
      (exists x, row col_current_seaweed_need = Some x) /\
      (exists x, row col_current_area_built = Some x) /\
      (exists x, row col_current_area_used = Some x) /\
      (exists x, row col_current_seaweed = Some x) /\
      (exists x, row col_current_density = Some x) /\
      (exists x, row col_cumulative_harvest_for_food = Some x).
Proof.
  destruct doubling_run as (r0 & r1 & r2 & r3 & r4 & _ & Hrun & _).
  exists [r0; r1; r2; r3; r4]. split; [exact Hrun |].
  exact (returned_frame_complete cfg_doubling _ Hrun).
Defined.



(** ** The harvest interval *)

(** Without a harvest the counter goes up by one a day. *)
Lemma interval_run (cfg : Config) (m n : nat) (sm sn : State) :
  (m <= n)%nat -> (n <= days_to_run cfg)%nat ->
  state_before cfg m = Ok sm -> state_before cfg n = Ok sn ->
  (forall k r,
     (m <= k < n)%nat ->
     nth_error (fst (seaweed_growth_frame cfg)) k = Some r ->
     r col_harvest_intervall = None) ->
  harvest_intervall sn = (harvest_intervall sm + (n - m))%nat.
Proof.
  intros Hmn. revert sn. induction Hmn as [| n Hmn IH]; intros sn Hn Hsm Hsn Hnone.
  - rewrite Hsm in Hsn. inversion Hsn; subst. lia.
  - destruct (state_before_S_inv cfg n sn Hsn) as (st & row & Hst & Hday).
    assert (IH' : harvest_intervall st = (harvest_intervall sm + (n - m))%nat).
    { apply IH; try assumption; [lia |].
      intros k r Hk. apply Hnone. lia. }
    assert (Hrow : nth_error (fst (seaweed_growth_frame cfg)) n = Some row).
    { rewrite (frame_row_at cfg n st ltac:(lia) Hst), Hday. reflexivity. }
    pose proof (Hnone n row ltac:(lia) Hrow) as Hcell.
    pose proof (day_body_shape cfg n st row sn Hday) as (_ & _ & Hno & _).
    destruct (Hno Hcell) as (_ & _ & _ & _ & _ & Hiv & _).
    rewrite Hiv, IH'. lia.
Qed.

(** X3.  The interval a harvest records is the number of days since
    the previous harvest; for the first harvest of a run it is the
    index of the day. *)
Theorem harvest_interval_counts_days (cfg : Config) :
  (forall j rj h,
     nth_error (fst (seaweed_growth_frame cfg)) j = Some rj ->
     rj col_harvest_intervall = Some h ->
     (forall k r,
        (k < j)%nat ->
        nth_error (fst (seaweed_growth_frame cfg)) k = Some r ->
        r col_harvest_intervall = None) ->
     h = INR j) /\
  (forall i j ri rj hi hj,
     (i < j)%nat ->
     nth_error (fst (seaweed_growth_frame cfg)) i = Some ri ->
     ri col_harvest_intervall = Some hi ->
     nth_error (fst (seaweed_growth_frame cfg)) j = Some rj ->
     rj col_harvest_intervall = Some hj ->
     (forall k r,
        (i < k < j)%nat ->
        nth_error (fst (seaweed_growth_frame cfg)) k = Some r ->
        r col_harvest_intervall = None) ->
     hj = INR (j - i)).
Proof.
  split.
  - intros j rj h Hrj Hh Hnone.
    pose proof (frame_row cfg j rj Hrj) as [Hj _].
    destruct (frame_row_started cfg j rj _ h Hrj Hh) as (st & Hst & Heq).
    destruct (day_body cfg j st empty_row) as [row' r] eqn:Hday.
    cbn [fst] in Heq. subst row'.
    destruct (day_body_interval cfg j st rj r Hday) as [Hval _].
    rewrite (Hval h Hh). f_equal.
    destruct (state_before_ok cfg 0 j st ltac:(lia) Hst) as [s0 Hs0].
    rewrite (interval_run cfg 0 j s0 st); try assumption; try lia.
    + rewrite state_before_0 in Hs0. apply initial_state_inv in Hs0.
      destruct Hs0 as (_ & _ & _ & _ & _ & _ & _ & ->). lia.
    + intros k r' Hk. apply Hnone. lia.
  - intros i j ri rj hi hj Hij Hri Hhi Hrj Hhj Hnone.
    pose proof (frame_row cfg j rj Hrj) as [Hj _].
    destruct (frame_row_started cfg j rj _ hj Hrj Hhj) as (st & Hst & Heq).
    destruct (day_body cfg j st empty_row) as [row' r] eqn:Hday.
    cbn [fst] in Heq. subst row'.
    destruct (day_body_interval cfg j st rj r Hday) as [Hval _].
    rewrite (Hval hj Hhj). f_equal.
    destruct (state_before_ok cfg (S i) j st ltac:(lia) Hst) as [s Hs].
    destruct (state_before_S_inv cfg i s Hs) as (sti & rowi & Hsti & Hdayi).
    pose proof (frame_row cfg i ri Hri) as [_ Hri'].
    rewrite Hsti, Hdayi in Hri'. cbn [fst] in Hri'. subst rowi.
    pose proof (day_body_shape cfg i sti ri s Hdayi) as (_ & _ & _ & Hyes).
    destruct (Hyes hi Hhi) as (_ & _ & _ & _ & Hone & _).
    rewrite (interval_run cfg (S i) j s st); try assumption; lia.
Qed.

Lemma harvest_interval_counts_days_witness :
  exists r1 r3,
    nth_error (fst (seaweed_growth_frame cfg_doubling)) 1 = Some r1 /\
    nth_error (fst (seaweed_growth_frame cfg_doubling)) 3 = Some r3 /\
    r1 col_harvest_intervall = Some (INR 1) /\
    r3 col_harvest_intervall = Some (INR (3 - 1)).
Proof.
  destruct doubling_run
    as (r0 & r1 & r2 & r3 & r4 & Hframe & _ & (H0 & _) & (H1 & _) & (H2 & _)
        & (H3 & _) & _).
  destruct (harvest_interval_counts_days cfg_doubling) as [Hfirst Hnext].
  assert (Hrows : fst (seaweed_growth_frame cfg_doubling) = [r0; r1; r2; r3; r4])
    by (rewrite Hframe; reflexivity).
  assert (E1 : 1 = INR 1).
  { apply (Hfirst 1%nat r1 1).
    - rewrite Hrows. reflexivity.
    - exact H1.
    - intros k r Hk. rewrite Hrows.
      destruct k as [| k]; [| lia]. cbn. intros Hr. inversion Hr. now subst. }
  assert (E3 : 2 = INR (3 - 1)).
  { apply (Hnext 1%nat 3%nat r1 r3 1 2).
    - lia.
    - rewrite Hrows. reflexivity.
    - exact H1.
    - rewrite Hrows. reflexivity.
    - exact H3.
    - intros k r Hk. rewrite Hrows.
      destruct k as [| [| [| k]]]; try lia. cbn. intros Hr. inversion Hr.
      now subst. }
  exists r1, r3. rewrite Hrows. cbn [nth_error].
  split; [reflexivity |]. split; [reflexivity |].
  rewrite <- E1, <- E3. split; assumption.
Defined.

(** ** The harvest *)



(** X5.  A harvest that records food leaves the used area stocked at
    exactly [min_density], and the food is the harvest after loss less
    the biomass needed to seed the unused built area; it is never
    negative. *)
Theorem surplus_harvest_restocks (cfg : Config) (i : nat) (row : Row)
  (f l n s u : R) :
  nth_error (fst (seaweed_growth_frame cfg)) i = Some row ->
  row col_harvest_for_food = Some f ->
  row col_harvest_wet_with_loss = Some l ->
  row col_current_seaweed_need = Some n ->
  row col_current_seaweed = Some s ->
  row col_current_area_used = Some u ->
  s = u * min_density cfg /\ f = l - n /\ 0 <= f.
Proof.
  intros Hrow Hf Hl Hn Hs Hu.
  destruct (frame_row_finished cfg i row col_current_seaweed s
              ltac:(tauto) Hrow Hs) as (st & st' & _ & Hday & _).
  pose proof (day_body_complete cfg i st row st' Hday)
    as (_ & Hu' & Hs' & _ & _ & Hn').
  destruct (day_body_surplus cfg i st row (Ok st') f Hday Hf)
    as (Hpos & [h Hh] & _).
  destruct (day_body_balance cfg i st row st' h Hday Hh)
    as (r' & w' & l' & _ & _ & Hl' & _ & Hsur).
  destruct (Hsur f Hf) as [Hstock Hfood].
  assert (l' = l) by congruence.
  assert (s = current_seaweed st') by congruence.
  assert (u = current_area_used st') by congruence.
  assert (n = current_seaweed_need st') by congruence.
  subst. auto.
Qed.

Lemma surplus_harvest_restocks_witness :
  exists row,
    nth_error (fst (seaweed_growth_frame cfg_doubling)) 1 = Some row /\
    row col_harvest_for_food = Some 28 /\
    12 = 1 * min_density cfg_doubling /\ 28 = 28 - 0 /\ 0 <= 28.
Proof.
  destruct doubling_run
    as (r0 & r1 & r2 & r3 & r4 & Hframe & _ & _
        & (_ & _ & _ & _ & Hl & Hf & Hn & Hu & Hs & _) & _).
  assert (Hrow : nth_error (fst (seaweed_growth_frame cfg_doubling)) 1 = Some r1)
    by (rewrite Hframe; reflexivity).
  exists r1. split; [exact Hrow |]. split; [exact Hf |].
  exact (surplus_harvest_restocks cfg_doubling 1 r1 28 28 0 12 1
           Hrow Hf Hl Hn Hs Hu).
Defined.

(** X6.  When the multiplier computed for a day the run reaches lies
    outside [0, 2], it is still written to the frame, as the second and
    last cell of that day, and the run then stops with the
    [AssertionError] of the envelope check. *)
Theorem multiplier_outside_envelope_aborts (cfg : Config) (i : nat)
  (st : State) (ssf f : R) :
  (i < days_to_run cfg)%nat ->
  state_before cfg i = Ok st ->
  self_shading (current_density st / 1000) = Ok ssf ->
  (growth_rate_fraction cfg = PyFloat f \/
   exists l, growth_rate_fraction cfg = PyList l /\
             forallb in_unit_interval l = true /\
             nth_error l i = Some f) ->
  ~ 0 <= 1 + optimal_growth_rate cfg * f * ssf / 100 <= 2 ->
  (exists row,
     nth_error (fst (seaweed_growth_frame cfg)) i = Some row /\
     row col_actual_growth_rate_multiplicator
     = Some (1 + optimal_growth_rate cfg * f * ssf / 100) /\
     forall c, c <> col_new_module_area_per_day ->
               c <> col_actual_growth_rate_multiplicator -> row c = None) /\
  seaweed_growth cfg = Raise AssertionError.
Proof.
  intros Hi Hst Hss Hfrac Hout.
  destruct (day_body_overgrowth cfg i st ssf f Hss Hfrac Hout)
    as (row & Hday & Ha & Hrest).
  split.
  - exists row. split; [| split; assumption].
    rewrite (frame_row_at cfg i st Hi Hst), Hday. reflexivity.
  - eapply day_raise_run; eassumption.
Qed.

Lemma multiplier_outside_envelope_aborts_witness :
  exists st,
    state_before cfg_overgrowth 0 = Ok st /\
    self_shading (current_density st / 1000) = Ok 1 /\
    ~ 0 <= 1 + optimal_growth_rate cfg_overgrowth * 40 * 1 / 100 <= 2 /\
    (exists row,
       nth_error (fst (seaweed_growth_frame cfg_overgrowth)) 0 = Some row /\
       row col_actual_growth_rate_multiplicator
       = Some (1 + optimal_growth_rate cfg_overgrowth * 40 * 1 / 100) /\
       forall c, c <> col_new_module_area_per_day ->
                 c <> col_actual_growth_rate_multiplicator -> row c = None) /\
    seaweed_growth cfg_overgrowth = Raise AssertionError.
Proof.
  assert (H : exists st,
             state_before cfg_overgrowth 0 = Ok st /\
             self_shading (current_density st / 1000) = Ok 1).
  { cbv [cfg_overgrowth]. run_engine. eexists. split; [reflexivity |].
    cbn. apply self_shading_low. lra. }
  destruct H as (st & Hst & Hss).
  assert (Hout : ~ 0 <= 1 + optimal_growth_rate cfg_overgrowth * 40 * 1 / 100
                      <= 2) by (cbn; lra).
  exists st. split; [exact Hst |]. split; [exact Hss |].
  split; [exact Hout |].
  apply (multiplier_outside_envelope_aborts cfg_overgrowth 0 st 1 40).
  - cbn. lia.
  - exact Hst.
  - exact Hss.
  - left. reflexivity.
  - exact Hout.
Defined.





(** ** The builder *)

Lemma lag_states (cfg : Config) (n : nat) (st : State) :
  (forall k, (k < n)%nat -> INR k <= initial_lag cfg) ->
  state_before cfg n = Ok st ->
  current_area_built st = initial_area_built cfg.
Proof.
  revert st. induction n as [| n IH]; intros st Hlag Hst.
  - rewrite state_before_0 in Hst. apply initial_state_inv in Hst. tauto.
  - destruct (state_before_S_inv cfg n st Hst) as (st0 & row & Hst0 & Hday).
    apply day_body_built in Hday. destruct Hday as (_ & _ & Hidle & _).
    rewrite Hidle by (apply Hlag; lia).
    apply IH; [| exact Hst0]. intros k Hk. apply Hlag. lia.
Qed.

(** X8.  Up to and including the day whose index equals the initial
    lag nothing is built: the build rate recorded is 0 and the built
    area recorded is the initial built area. *)
Theorem lag_days_build_nothing (cfg : Config) (i : nat) (row : Row) :
  nth_error (fst (seaweed_growth_frame cfg)) i = Some row ->
  INR i <= initial_lag cfg ->
  (forall a, row col_new_module_area_per_day = Some a -> a = 0) /\
  (forall b, row col_current_area_built = Some b ->
             b = initial_area_built cfg).
Proof.
  intros Hrow Hlag. split.
  - intros a Ha.
    destruct (frame_row_started cfg i row _ a Hrow Ha) as (st & Hst & Heq).
    destruct (day_body cfg i st empty_row) as [row' r] eqn:Hday.
    cbn [fst] in Heq. subst row'.
    pose proof (day_body_lag_cell cfg i st row r Hday Hlag). congruence.
  - intros b Hb.
    destruct (frame_row_finished cfg i row col_current_area_built b
                ltac:(tauto) Hrow Hb) as (st & st' & _ & Hday & Hst').
    pose proof (day_body_complete cfg i st row st' Hday) as (Hb' & _).
    assert (b = current_area_built st') by congruence. subst b.
    apply (lag_states cfg (S i)); [| exact Hst'].
    intros k Hk. apply Rle_trans with (INR i); [| exact Hlag].
    apply le_INR. lia.
Qed.

Lemma lag_days_build_nothing_witness :
  exists row,
    nth_error (fst (seaweed_growth_frame cfg_clamp)) 0 = Some row /\
    INR 0 <= initial_lag cfg_clamp /\
    row col_new_module_area_per_day = Some 0 /\
    row col_current_area_built = Some (initial_area_built cfg_clamp).
Proof.
  destruct clamp_run as (r0 & r1 & r2 & Hframe & (Hm & Hb & _) & _).
  assert (Hrow : nth_error (fst (seaweed_growth_frame cfg_clamp)) 0 = Some r0)
    by (rewrite Hframe; reflexivity).
  assert (Hlag : INR 0 <= initial_lag cfg_clamp) by (cbn; lra).
  destruct (lag_days_build_nothing cfg_clamp 0 r0 Hrow Hlag) as [Hcell Hbuilt].
  pose proof (Hcell 0 Hm) as E0. pose proof (Hbuilt 100 Hb) as E1.
  exists r0. split; [exact Hrow |]. split; [exact Hlag |].
  split; [exact Hm |]. rewrite <- E1. exact Hb.
Defined.

(** X9.  With a build rate and a usable percentage that are not
    negative the built area never shrinks: every day records at least
    the initial built area, and a later day at least what an earlier
    day recorded. *)
Theorem built_area_never_shrinks (cfg : Config) :
  0 <= new_module_area_per_day cfg ->
  0 <= percent_usable_for_growth cfg ->
  (forall i row b,
     nth_error (fst (seaweed_growth_frame cfg)) i = Some row ->
     row col_current_area_built = Some b ->
     initial_area_built cfg <= b) /\
  (forall i j ri rj bi bj,
     (i <= j)%nat ->
     nth_error (fst (seaweed_growth_frame cfg)) i = Some ri ->
     nth_error (fst (seaweed_growth_frame cfg)) j = Some rj ->
     ri col_current_area_built = Some bi ->
     rj col_current_area_built = Some bj ->
     bi <= bj).
Proof.
  intros Hrate Hpct.
  set (P := fun s : State => 0 <= module_area s).
  set (Rel := fun a b : State =>
                P a -> P b /\ current_area_built a <= current_area_built b).
  assert (Hrel : forall i j si sj,
             (i <= j)%nat ->
             state_before cfg i = Ok si -> state_before cfg j = Ok sj ->
             Rel si sj).
  { apply (reachable_rel cfg Rel).
    - intros s Hs. split; [exact Hs | lra].
    - intros a b c Hab Hbc Ha.
      destruct (Hab Ha) as (Hb & H1).
      destruct (Hbc Hb) as (Hc & H2).
      split; [exact Hc | lra].
    - intros d s row s' Hday Hm.
      destruct (day_body_built_monotone cfg d s row s' Hpct Hm Hday).
      split; assumption. }
  assert (Hinit : forall s, initial_state cfg = Ok s -> P s).
  { intros s Hs. apply initial_state_inv in Hs.
    destruct Hs as (_ & Hm & _). unfold P. rewrite Hm. exact Hrate. }
  assert (HP : forall n s, state_before cfg n = Ok s -> P s).
  { apply (reachable_ind cfg P Hinit).
    intros d s row s' Hm Hday.
    now destruct (day_body_built_monotone cfg d s row s' Hpct Hm Hday). }
  split.
  - intros i row b Hrow Hb.
    destruct (frame_row_finished cfg i row col_current_area_built b
                ltac:(tauto) Hrow Hb) as (st & st' & Hst & Hday & Hst').
    pose proof (day_body_complete cfg i st row st' Hday) as (Hb' & _).
    destruct (state_before_ok cfg 0 i st ltac:(lia) Hst) as [s0 Hs0].
    destruct (Hrel 0%nat (S i) s0 st' ltac:(lia) Hs0 Hst' (HP _ _ Hs0))
      as (_ & H1).
    rewrite state_before_0 in Hs0. apply initial_state_inv in Hs0.
    destruct Hs0 as (_ & _ & Eb & _).
    assert (b = current_area_built st') by congruence.
    subst b. rewrite <- Eb. exact H1.
  - intros i j ri rj bi bj Hij Hri Hrj Hbi Hbj.
    destruct (frame_row_finished cfg i ri col_current_area_built bi
                ltac:(tauto) Hri Hbi) as (si & si' & _ & Hdi & Hsi).
    destruct (frame_row_finished cfg j rj col_current_area_built bj
                ltac:(tauto) Hrj Hbj) as (sj & sj' & _ & Hdj & Hsj).
    pose proof (day_body_complete cfg i si ri si' Hdi) as (Bi & _).
    pose proof (day_body_complete cfg j sj rj sj' Hdj) as (Bj & _).
    destruct (Hrel (S i) (S j) si' sj' ltac:(lia) Hsi Hsj (HP _ _ Hsi))
      as (_ & H1).
    assert (bi = current_area_built si') by congruence.
    assert (bj = current_area_built sj') by congruence.
    subst. exact H1.
Qed.

Lemma built_area_never_shrinks_witness :
  exists r0 r1,
    nth_error (fst (seaweed_growth_frame cfg_clamp)) 0 = Some r0 /\
    nth_error (fst (seaweed_growth_frame cfg_clamp)) 1 = Some r1 /\
    r0 col_current_area_built = Some 100 /\
    r1 col_current_area_built = Some 100.5 /\
    initial_area_built cfg_clamp <= 100 /\
    100 <= 100.5.
Proof.
  destruct clamp_run
    as (r0 & r1 & r2 & Hframe & (_ & Hb0 & Hu0) & (_ & Hb1 & Hu1) & _).
  assert (H0 : nth_error (fst (seaweed_growth_frame cfg_clamp)) 0 = Some r0)
    by (rewrite Hframe; reflexivity).
  assert (H1 : nth_error (fst (seaweed_growth_frame cfg_clamp)) 1 = Some r1)
    by (rewrite Hframe; reflexivity).
  destruct (built_area_never_shrinks cfg_clamp) as [Hinit Hmono];
    [cbn; lra | cbn; lra |].
  exists r0, r1. repeat split; try assumption.
  - apply (Hinit 0%nat r0 100 H0 Hb0).
  - apply (Hmono 0%nat 1%nat r0 r1 100 100.5); auto.
Defined.

(** X10.  The argument [new_module_area_per_day] only selects the
    mode.  When it is positive, its value is never used: whatever the
    builder records is 0 or the logistic curve at the day index, and on
    a day on which the builder works it is the curve.  When it is zero
    or negative, the builder records 0 or that constant, and the
    constant on the days on which it works. *)
Theorem build_rate_mode (cfg : Config) :
  (0 < new_module_area_per_day cfg ->
   forall i row a,
     nth_error (fst (seaweed_growth_frame cfg)) i = Some row ->
     row col_new_module_area_per_day = Some a ->
     (a = 0 \/ a = seaweed_farm_area_per_day (INR i)) /\
     (forall st,
        state_before cfg i = Ok st ->
        initial_lag cfg < INR i ->
        current_area_built st < max_area cfg ->
        a = seaweed_farm_area_per_day (INR i))) /\
  (new_module_area_per_day cfg <= 0 ->
   forall i row a,
     nth_error (fst (seaweed_growth_frame cfg)) i = Some row ->
     row col_new_module_area_per_day = Some a ->
     (a = 0 \/ a = new_module_area_per_day cfg) /\
     (forall st,
        state_before cfg i = Ok st ->
        initial_lag cfg < INR i ->
        current_area_built st < max_area cfg ->
        a = new_module_area_per_day cfg)).
Proof.
  split.
  - intros Hpos.
    assert (HP : forall n s, state_before cfg n = Ok s -> 0 < module_area s).
    { apply (reachable_ind cfg (fun s => 0 < module_area s)).
      - intros s Hs. apply initial_state_inv in Hs.
        destruct Hs as (_ & -> & _). exact Hpos.
      - intros d s row s' Hs Hday.
        destruct (day_body_mode cfg d s row (Ok s') Hday) as [_ Hnext].
        destruct (Hnext s' eq_refl) as [Hcurve _].
        rewrite (Hcurve Hs). apply seaweed_farm_area_per_day_pos. }
    intros i row a Hrow Ha.
    destruct (frame_row_started cfg i row _ a Hrow Ha) as (st & Hst & Heq).
    destruct (day_body cfg i st empty_row) as [row' r] eqn:Hday.
    cbn [fst] in Heq. subst row'.
    pose proof (HP i st Hst) as Hm. split.
    + destruct (day_body_mode cfg i st row r Hday) as [Hcell _].
      destruct (Hcell a Ha) as [-> | [[_ ->] | [Hle _]]]; auto. lra.
    + intros st0 Hst0 Hlag Hlt.
      assert (st0 = st) by congruence. subst st0.
      destruct (day_body_build_cell cfg i st row r Hday Hlag Hlt) as [Hc _].
      specialize (Hc Hm). congruence.
  - intros Hneg.
    assert (HP : forall n s,
               state_before cfg n = Ok s ->
               module_area s = new_module_area_per_day cfg).
    { apply (reachable_ind cfg
               (fun s => module_area s = new_module_area_per_day cfg)).
      - intros s Hs. apply initial_state_inv in Hs. tauto.
      - intros d s row s' Hs Hday.
        destruct (day_body_mode cfg d s row (Ok s') Hday) as [_ Hnext].
        destruct (Hnext s' eq_refl) as [_ Hconst].
        rewrite Hconst by lra. exact Hs. }
    intros i row a Hrow Ha.
    destruct (frame_row_started cfg i row _ a Hrow Ha) as (st & Hst & Heq).
    destruct (day_body cfg i st empty_row) as [row' r] eqn:Hday.
    cbn [fst] in Heq. subst row'.
    pose proof (HP i st Hst) as Hm. split.
    + destruct (day_body_mode cfg i st row r Hday) as [Hcell _].
      destruct (Hcell a Ha) as [-> | [[Hlt _] | [_ ->]]]; auto. lra.
    + intros st0 Hst0 Hlag Hlt.
      assert (st0 = st) by congruence. subst st0.
      destruct (day_body_build_cell cfg i st row r Hday Hlag Hlt) as [_ Hc].
      rewrite Hc in Ha by lra. congruence.
Qed.

Lemma build_rate_mode_witness :
  (0 < new_module_area_per_day cfg_clamp /\
   exists row,
     nth_error (fst (seaweed_growth_frame cfg_clamp)) 1 = Some row /\
     row col_new_module_area_per_day
     = Some (seaweed_farm_area_per_day (INR 1))) /\
  (new_module_area_per_day cfg_unbuild <= 0 /\
   exists row,
     nth_error (fst (seaweed_growth_frame cfg_unbuild)) 1 = Some row /\
     row col_new_module_area_per_day = Some (-1) /\
     (-1 = 0 \/ -1 = new_module_area_per_day cfg_unbuild)).
Proof.
  destruct (build_rate_mode cfg_clamp) as [Hpos _].
  destruct (build_rate_mode cfg_unbuild) as [_ Hneg].
  split.
  - assert (H : 0 < new_module_area_per_day cfg_clamp) by (cbn; lra).
    split; [exact H |].
    destruct clamp_run as (r0 & r1 & r2 & Hframe & _ & (Hm & _) & _).
    assert (Hrow : nth_error (fst (seaweed_growth_frame cfg_clamp)) 1 = Some r1)
      by (rewrite Hframe; reflexivity).
    exists r1. split; [exact Hrow |].
    destruct (Hpos H 1%nat r1 _ Hrow Hm) as [_ Hbuild].
    exact Hm.
  - assert (H : new_module_area_per_day cfg_unbuild <= 0) by (cbn; lra).
    split; [exact H |].
    destruct unbuild_run as (r0 & r1 & Hframe & Hm).
    assert (Hrow : nth_error (fst (seaweed_growth_frame cfg_unbuild)) 1 = Some r1)
      by (rewrite Hframe; reflexivity).
    exists r1. split; [exact Hrow |]. split; [exact Hm |].
    destruct (Hneg H 1%nat r1 _ Hrow Hm) as [Hor _]. exact Hor.
Defined.

(** ** From one day to the next *)

(** X11.  The self-shading factor of a day is computed from the
    density recorded for the day before, also when that day harvested:
    the multiplier of day [i + 1] is
    [1 + optimal_growth_rate * fraction * self_shading (d / 1000) / 100]
    for the density [d] recorded on day [i]. *)
Theorem shading_uses_recorded_density (cfg : Config) (i : nat)
  (ri rj : Row) (dprev a : R) :
  nth_error (fst (seaweed_growth_frame cfg)) i = Some ri ->
  nth_error (fst (seaweed_growth_frame cfg)) (S i) = Some rj ->
  ri col_current_density = Some dprev ->
  rj col_actual_growth_rate_multiplicator = Some a ->
  exists ssf,
    self_shading (dprev / 1000) = Ok ssf /\
    match growth_rate_fraction cfg with
    | PyFloat f => a = 1 + (optimal_growth_rate cfg * f * ssf) / 100
    | PyList l =>
        exists f, nth_error l (S i) = Some f /\
                  a = 1 + (optimal_growth_rate cfg * f * ssf) / 100
    | _ => False
    end.
Proof.
  intros Hri Hrj Hd Ha.
  destruct (frame_row_finished cfg i ri col_current_density dprev
              ltac:(tauto) Hri Hd) as (si & si' & _ & Hdi & Hsi').
  pose proof (day_body_complete cfg i si ri si' Hdi) as (_ & _ & _ & Hd' & _).
  assert (dprev = current_density si') by congruence. subst dprev.
  destruct (frame_row_started cfg (S i) rj _ a Hrj Ha) as (st & Hst & Heq).
  assert (st = si') by congruence. subst st.
  destruct (day_body cfg (S i) si' empty_row) as [row' r] eqn:Hday.
  cbn [fst] in Heq. subst row'.
  destruct (day_body_multiplier cfg (S i) si' rj r a Hday Ha)
    as (ssf & Hss & Hm).
  exists ssf. split; [exact Hss |].
  destruct (growth_rate_fraction cfg); try assumption.
  tauto.
Qed.

Lemma shading_uses_recorded_density_witness :
  exists r1 r2 ssf,
    nth_error (fst (seaweed_growth_frame cfg_doubling)) 1 = Some r1 /\
    nth_error (fst (seaweed_growth_frame cfg_doubling)) 2 = Some r2 /\
    r1 col_harvest_intervall = Some 1 /\
    r1 col_current_density = Some 40 /\
    r2 col_actual_growth_rate_multiplicator = Some 2 /\
    self_shading (40 / 1000) = Ok ssf /\
    2 = 1 + (optimal_growth_rate cfg_doubling * 1 * ssf) / 100.
Proof.
  destruct doubling_run
    as (r0 & r1 & r2 & r3 & r4 & Hframe & _ & _
        & (Hh & _ & _ & _ & _ & _ & _ & _ & _ & Hd) & (_ & Ha & _) & _).
  assert (H1 : nth_error (fst (seaweed_growth_frame cfg_doubling)) 1 = Some r1)
    by (rewrite Hframe; reflexivity).
  assert (H2 : nth_error (fst (seaweed_growth_frame cfg_doubling)) 2 = Some r2)
    by (rewrite Hframe; reflexivity).
  destruct (shading_uses_recorded_density cfg_doubling 1 r1 r2 40 2
              H1 H2 Hd Ha) as (ssf & Hss & Hm).
  exists r1, r2, ssf. repeat split; assumption.
Defined.

(** ** A run that raises *)

Lemma first_raise (cfg : Config) (n : nat) (e : exn) :
  state_before cfg n = Raise e ->
  exists k st row,
    (k < n)%nat /\
    state_before cfg k = Ok st /\
    day_body cfg k st empty_row = (row, Raise e).
Proof.
  induction n as [| n IH]; intros Hn.
  - rewrite state_before_0 in Hn. unfold initial_state in Hn.
    destruct (pydiv (initial_seaweed cfg) (initial_area_used cfg)) eqn:Hd;
      try discriminate Hn.
    now apply pydiv_never_raises in Hd.
  - rewrite state_before_S in Hn.
    destruct (state_before cfg n) as [st | e' |] eqn:Hst.
    + exists n, st, (fst (day_body cfg n st empty_row)).
      split; [lia |]. split; [exact Hst |].
      destruct (day_body cfg n st empty_row) as [row r]. cbn in *. now subst.
    + inversion Hn; subst e'.
      destruct (IH eq_refl) as (k & st & row & Hk & Hsk & Hday).
      exists k, st, row. repeat split; auto.
    + discriminate Hn.
Qed.

(** A run that divides by zero does so before the loop, by an initial
    used area of 0, or on one of its days. *)
Lemma first_division (cfg : Config) (n : nat) :
  state_before cfg n = ZeroDivision ->
  initial_area_used cfg = 0 \/
  exists k st row,
    (k < n)%nat /\
    state_before cfg k = Ok st /\
    day_body cfg k st empty_row = (row, ZeroDivision).
Proof.
  induction n as [| n IH]; intros Hn.
  - left. rewrite state_before_0 in Hn. unfold initial_state in Hn.
    destruct (pydiv (initial_seaweed cfg) (initial_area_used cfg)) eqn:Hd;
      try discriminate Hn.
    now apply pydiv_zero_inv in Hd.
  - rewrite state_before_S in Hn.
    destruct (state_before cfg n) as [st | e' |] eqn:Hst.
    + right. exists n, st, (fst (day_body cfg n st empty_row)).
      split; [lia |]. split; [exact Hst |].
      destruct (day_body cfg n st empty_row) as [row r]. cbn in *. now subst.
    + discriminate Hn.
    + destruct (IH eq_refl) as [H0 | (k & st & row & Hk & Hsk & Hday)];
        [now left |].
      right. exists k, st, row. repeat split; auto.
Qed.

(** X12.  What a run that raises an exception leaves behind: there is
    one day [k] on which it stopped; every earlier day has its complete
    record, day [k] has none of its end-of-day cells, and the rows of
    all later days are empty. *)
Theorem aborted_run_rows (cfg : Config) (e : exn) :
  seaweed_growth cfg = Raise e ->
  exists k,
    (k < days_to_run cfg)%nat /\
    length (fst (seaweed_growth_frame cfg)) = days_to_run cfg /\
    (forall i row,
       (i < k)%nat ->
       nth_error (fst (seaweed_growth_frame cfg)) i = Some row ->
       (exists x, row col_current_area_built = Some x) /\
       (exists x, row col_current_area_used = Some x) /\
       (exists x, row col_current_seaweed = Some x) /\
       (exists x, row col_current_density = Some x) /\
       (exists x, row col_cumulative_harvest_for_food = Some x)) /\
    (forall row,
       nth_error (fst (seaweed_growth_frame cfg)) k = Some row ->
       row col_current_area_built = None /\
       row col_current_area_used = None /\
       row col_current_seaweed = None /\
       row col_current_density = None /\
       row col_cumulative_harvest_for_food = None) /\
    (forall i row c,
       (k < i)%nat ->
       nth_error (fst (seaweed_growth_frame cfg)) i = Some row ->
       row c = None).
Proof.
  intros Hrun.
  assert (Hn : state_before cfg (days_to_run cfg) = Raise e).
  { rewrite seaweed_growth_outcome in Hrun.
    destruct (state_before cfg (days_to_run cfg)); congruence. }
  destruct (first_raise cfg _ e Hn) as (k & st & rowk & Hk & Hsk & Hday).
  destruct (state_before_ok cfg 0 k st ltac:(lia) Hsk) as [s0 H0].
  assert (Hinit : initial_state cfg = Ok s0) by now rewrite <- state_before_0.
  exists k. split; [exact Hk |].
  split; [exact (frame_length cfg s0 Hinit) |].
  split; [| split].
  - intros i row Hi Hrow.
    destruct (state_before_ok cfg (S i) k st ltac:(lia) Hsk) as [si' Hsi'].
    destruct (state_before_S_inv cfg i si' Hsi') as (si & row' & Hsi & Hdi).
    pose proof (frame_row cfg i row Hrow) as [_ Heq].
    rewrite Hsi, Hdi in Heq. cbn [fst] in Heq. subst row'.
    pose proof (day_body_complete cfg i si row si' Hdi)
      as (H1 & H2 & H3 & H4 & H5 & _).
    repeat split; eexists; eassumption.
  - intros row Hrow.
    pose proof (frame_row cfg k row Hrow) as [_ Heq].
    rewrite Hsk, Hday in Heq. cbn [fst] in Heq. subst row.
    pose proof (day_body_raised cfg k st rowk e Hday)
      as (H1 & H2 & H3 & H4 & H5 & _).
    auto.
  - intros i row c Hi Hrow.
    pose proof (frame_row cfg i row Hrow) as [_ Heq].
    rewrite (state_before_raise cfg (S k) i e) in Heq.
    + subst row. reflexivity.
    + lia.
    + rewrite state_before_S, Hsk, Hday. reflexivity.
Qed.

Lemma aborted_run_rows_witness :
  seaweed_growth cfg_short_series = Raise IndexError /\
  exists k,
    (k < days_to_run cfg_short_series)%nat /\
    length (fst (seaweed_growth_frame cfg_short_series))
    = days_to_run cfg_short_series.
Proof.
  assert (Hrun : seaweed_growth cfg_short_series = Raise IndexError).
  { run_engine. reflexivity. }
  split; [exact Hrun |].
  destruct (aborted_run_rows cfg_short_series IndexError Hrun)
    as (k & Hk & Hlen & _).
  exists k. split; assumption.
Defined.

(** ** The calibrator, continued *)

Lemma last_valid_Some_of_cell (df : DataFrame) (row : Row) (c : column) (v : R) :
  In row df -> row c = Some v ->
  exists w, last_valid (map (fun row => row c) df) = Some w.
Proof.
  intros Hin Hc.
  destruct (last_valid (map (fun row => row c) df)) as [w |] eqn:Hlast;
    [now exists w |].
  exfalso. rewrite last_valid_None in Hlast.
  assert (H : In (row c) (map (fun row => row c) df))
    by exact (in_map _ df row Hin).
  apply Hlast in H. congruence.
Qed.

(** What the calibrator returns, from the frame of its run. *)
Lemma calibrator_result (loss : R) (fraction : pyval) (days : nat)
  (pct ogr : R) (df : DataFrame) :
  seaweed_growth (calibration_config loss fraction days pct ogr) = Ok df ->
  determine_average_productivity loss fraction days pct ogr =
  match last_valid (map (fun row => row col_harvest_intervall) df),
        last_valid (map (fun row => row col_harvest_for_food) df) with
  | Some interval, Some food => Ok (Some (food / interval))
  | _, _ => Ok None
  end.
Proof.
  intros Hrun. unfold determine_average_productivity. rewrite Hrun.
  unfold stable_values. rewrite !loc_last_valid_eq.
  repeat match goal with
         | |- context [last_valid ?s] => destruct (last_valid s)
         end;
    reflexivity.
Qed.

(** X13.  A productivity returned by the calibrator is never negative. *)
Theorem productivity_never_negative (loss : R) (fraction : pyval)
  (days : nat) (pct ogr p : R) :
  determine_average_productivity loss fraction days pct ogr = Ok (Some p) ->
  0 <= p.
Proof.
  intros Hp.
  destruct (seaweed_growth (calibration_config loss fraction days pct ogr))
    as [df | e |] eqn:Hrun.
  - rewrite (calibrator_result _ _ _ _ _ df Hrun) in Hp.
    destruct (last_valid (map (fun row => row col_harvest_intervall) df))
      as [interval |] eqn:Hi; [| discriminate].
    destruct (last_valid (map (fun row => row col_harvest_for_food) df))
      as [food |] eqn:Hf; [| discriminate].
    inversion Hp; subst p. clear Hp.
    pose proof (seaweed_growth_Ok_inv _ df Hrun) as [Hdf _].
    assert (Hpos : 1 <= interval).
    { apply last_valid_In, in_map_iff in Hi.
      destruct Hi as (row & Hcell & Hrow).
      apply In_nth_error in Hrow. destruct Hrow as [i Hrow].
      rewrite Hdf in Hrow.
      eapply calibration_interval_positive; eassumption. }
    assert (Hfood : 0 <= food).
    { apply last_valid_In, in_map_iff in Hf.
      destruct Hf as (row & Hcell & Hrow).
      apply In_nth_error in Hrow. destruct Hrow as [i Hrow].
      rewrite Hdf in Hrow.
      destruct (frame_row_started _ i row _ food Hrow Hcell)
        as (st & _ & Heq).
      destruct (day_body _ i st empty_row) as [row' r] eqn:Hday.
      cbn [fst] in Heq. subst row'.
      now destruct (day_body_surplus _ i st row r food Hday Hcell). }
    apply Rmult_le_pos; [exact Hfood |].
    left. apply Rinv_0_lt_compat. lra.
  - unfold determine_average_productivity in Hp. rewrite Hrun in Hp.
    discriminate.
  - unfold determine_average_productivity in Hp. rewrite Hrun in Hp.
    discriminate.
Qed.

(** X14.  With a constant fraction, [c = optimal_growth_rate *
    growth_rate_fraction] between 0 and 100 and a harvest loss between
    0 and 100 percent, the calibrator never raises; and as soon as
    [(1 + c / 900) ^ days_to_run] exceeds 3600 it returns a
    productivity. *)
Theorem calibrator_returns (loss f pct ogr : R) (days : nat) :
  0 <= loss <= 100 ->
  0 <= ogr * f <= 100 ->
  (exists r,
     determine_average_productivity loss (PyFloat f) days pct ogr = Ok r) /\
  (3600 < (1 + ogr * f / 900) ^ days ->
   exists p,
     determine_average_productivity loss (PyFloat f) days pct ogr
     = Ok (Some p)).
Proof.
  intros Hloss Hrate.
  pose proof (calibration_float_returns loss f pct ogr days Hloss Hrate) as Hrun.
  rewrite (calibrator_result _ _ _ _ _ _ Hrun).
  split.
  - repeat match goal with
           | |- context [last_valid ?s] => destruct (last_valid s)
           end;
      eexists; reflexivity.
  - intros Hpow.
    destruct (calibration_float_harvests loss f pct ogr days Hloss Hrate Hpow)
      as (i & row & h & food & Hrow & Hh & Hf).
    apply nth_error_In in Hrow.
    destruct (last_valid_Some_of_cell _ row _ h Hrow Hh) as [w ->].
    destruct (last_valid_Some_of_cell _ row _ food Hrow Hf) as [w' ->].
    eexists. reflexivity.
Qed.

Lemma calibrator_returns_witness :
  0 <= 0 <= 100 /\ 0 <= 100 * 1 <= 100 /\
  3600 < (1 + 100 * 1 / 900) ^ 100 /\
  exists p,
    determine_average_productivity 0 (PyFloat 1) 100 100 100 = Ok (Some p).
Proof.
  assert (Hloss : 0 <= 0 <= 100) by lra.
  assert (Hrate : 0 <= 100 * 1 <= 100) by lra.
  assert (Hpow : 3600 < (1 + 100 * 1 / 900) ^ 100).
  { replace (1 + 100 * 1 / 900) with (10 / 9) by lra. exact pow_10_9_100. }
  destruct (calibrator_returns 0 1 100 100 100 Hloss Hrate) as [_ Hsome].
  repeat split; try lra. exact (Hsome Hpow).
Defined.

Lemma productivity_never_negative_witness :
  exists p,
    determine_average_productivity 0 (PyFloat 1) 100 100 100 = Ok (Some p) /\
    0 <= p.
Proof.
  destruct (calibration_harvests 0 1 100 100 100%nat)
    as (df & interval & food & Hrun & Hi & Hf); [lra | lra | lia |].
  pose proof (calibrator_result _ _ _ _ _ df Hrun) as Hres.
  rewrite Hi, Hf in Hres.
  exists (food / interval). split; [exact Hres |].
  exact (productivity_never_negative _ _ _ _ _ _ Hres).
Defined.

(** One tonne on one square kilometre, at most doubled each day, stays
    below 3600 t for eleven days. *)
Lemma calibration_short_states (loss : R) (fraction : pyval) (days : nat)
  (pct ogr : R) (n : nat) (st : State) :
  (n <= 11)%nat ->
  state_before (calibration_config loss fraction days pct ogr) n = Ok st ->
  current_area_used st = 1 /\
  0 <= current_seaweed st <= 2 ^ n /\
  forall k row h,
    (k < n)%nat ->
    nth_error
      (fst (seaweed_growth_frame
              (calibration_config loss fraction days pct ogr))) k
    = Some row ->
    row col_harvest_intervall = Some h -> False.
Proof.
  set (cfg := calibration_config loss fraction days pct ogr).
  revert st. induction n as [| n IH]; intros st Hn Hst.
  - rewrite state_before_0 in Hst. apply initial_state_inv in Hst.
    destruct Hst as (_ & _ & _ & -> & -> & _). cbn.
    repeat split; try lra. intros k row h Hk. lia.
  - destruct (state_before_S_inv cfg n st Hst) as (st0 & row & Hst0 & Hday).
    destruct (IH st0 ltac:(lia) Hst0) as (Hu & [Hs0 Hs1] & Hnone).
    assert (Hpow : 2 ^ S n <= 2048).
    { replace 2048 with (2 ^ 11) by (simpl; lra).
      apply Rle_pow; [lra | exact Hn]. }
    assert (Hcell : row col_harvest_intervall = None).
    { destruct (row col_harvest_intervall) as [h |] eqn:Hh; [| reflexivity].
      exfalso.
      destruct (day_body_harvest_cond cfg n st0 row (Ok st) h Hday Hh)
        as (agr & _ & Hagr & _ & Hfire).
      rewrite Hu in Hfire. cbn in Hfire, Hpow. nra. }
    destruct (day_body_growth cfg n st0 row st Hday Hcell)
      as (agr & _ & Hagr & Hgrow).
    pose proof (day_body_shape cfg n st0 row st Hday) as (_ & _ & Hno & _).
    destruct (Hno Hcell) as (_ & _ & _ & _ & _ & _ & Hused).
    split; [congruence |]. split.
    + rewrite Hgrow. cbn [pow]. split; nra.
    + intros k r h Hk Hr Hh.
      destruct (Nat.eq_dec k n) as [-> | Hne].
      * pose proof (frame_row cfg n r Hr) as [_ Heq].
        rewrite Hst0, Hday in Heq. cbn [fst] in Heq. subst r. congruence.
      * apply (Hnone k r h); [lia | exact Hr | exact Hh].
Qed.

(** X15.  A calibration of eleven days or fewer never yields a
    productivity, whatever the growth-rate fraction: the calibrator
    returns [None], unless the run itself raises. *)
Theorem short_calibration_unproductive (loss : R) (fraction : pyval)
  (days : nat) (pct ogr : R) :
  (days <= 11)%nat ->
  determine_average_productivity loss fraction days pct ogr = Ok None \/
  exists e,
    determine_average_productivity loss fraction days pct ogr = Raise e.
Proof.
  intros Hdays.
  destruct (seaweed_growth (calibration_config loss fraction days pct ogr))
    as [df | e |] eqn:Hrun.
  - left. rewrite (calibrator_result _ _ _ _ _ df Hrun).
    pose proof (seaweed_growth_Ok_inv _ df Hrun) as [Hdf [stn Hn]].
    destruct (calibration_short_states loss fraction days pct ogr days stn
                Hdays Hn) as (_ & _ & Hnone).
    assert (Hlast : last_valid (map (fun row => row col_harvest_intervall) df)
                    = None).
    { apply last_valid_None. intros x Hx. apply in_map_iff in Hx.
      destruct Hx as (row & <- & Hrow).
      destruct (row col_harvest_intervall) as [h |] eqn:Hh; [| reflexivity].
      exfalso. apply In_nth_error in Hrow. destruct Hrow as [k Hrow].
      rewrite Hdf in Hrow.
      pose proof (frame_row _ k row Hrow) as [Hk _].
      exact (Hnone k row h Hk Hrow Hh). }
    rewrite Hlast. reflexivity.
  - right. exists e. unfold determine_average_productivity.
    rewrite Hrun. reflexivity.
  - exfalso. rewrite seaweed_growth_outcome in Hrun.
    destruct (state_before (calibration_config loss fraction days pct ogr)
                (days_to_run (calibration_config loss fraction days pct ogr)))
      eqn:Hn; try discriminate Hrun.
    destruct (first_division _ _ Hn) as [H0 | (k & st & row & Hk & Hsk & Hday)].
    + cbn in H0. lra.
    + cbn in Hk.
      destruct (calibration_short_states loss fraction days pct ogr k st
                  ltac:(lia) Hsk) as (Hu & _).
      destruct (day_body_division _ k st row Hday) as [Hz | [_ Hz]].
      * lra.
      * cbn in Hz. lra.
Qed.

Lemma short_calibration_unproductive_witness :
  (11 <= 11)%nat /\
  (determine_average_productivity 0 (PyFloat 1) 11 100 100 = Ok None \/
   exists e,
     determine_average_productivity 0 (PyFloat 1) 11 100 100 = Raise e).
Proof.
  split; [lia |].
  apply (short_calibration_unproductive 0 (PyFloat 1) 11 100 100). lia.
Defined.

(** ** Growth and the harvest trigger *)

(** X16.  A harvest fires exactly on the days whose recorded density
    has reached [max_density]. *)
Theorem harvest_iff_density_reached (cfg : Config) (i : nat) (row : Row)
  (v : R) :
  nth_error (fst (seaweed_growth_frame cfg)) i = Some row ->
  row col_current_density = Some v ->
  (exists h, row col_harvest_intervall = Some h) <-> max_density cfg <= v.
Proof.
  intros Hrow Hv.
  destruct (frame_row_started cfg i row _ v Hrow Hv) as (st & Hst & Heq).
  destruct (day_body cfg i st empty_row) as [row' r] eqn:Hday.
  cbn [fst] in Heq. subst row'.
  destruct (day_body_density cfg i st row r v Hday Hv)
    as (agr & _ & _ & _ & Hfire & Hquiet).
  split.
  - intros [h Hh]. exact (Hfire h Hh).
  - intros Hge. destruct (row col_harvest_intervall) as [h |] eqn:Hh.
    + now exists h.
    + specialize (Hquiet eq_refl). lra.
Qed.

Lemma harvest_iff_density_reached_witness :
  exists r0 r1,
    nth_error (fst (seaweed_growth_frame cfg_doubling)) 0 = Some r0 /\
    nth_error (fst (seaweed_growth_frame cfg_doubling)) 1 = Some r1 /\
    r0 col_current_density = Some 20 /\
    r1 col_current_density = Some 40 /\
    ~ (exists h, r0 col_harvest_intervall = Some h) /\
    max_density cfg_doubling <= 40.
Proof.
  destruct doubling_run
    as (r0 & r1 & r2 & r3 & r4 & Hframe & _ & (Hn0 & _ & Hd0)
        & (Hh1 & _ & _ & _ & _ & _ & _ & _ & _ & Hd1) & _).
  assert (H0 : nth_error (fst (seaweed_growth_frame cfg_doubling)) 0 = Some r0)
    by (rewrite Hframe; reflexivity).
  assert (H1 : nth_error (fst (seaweed_growth_frame cfg_doubling)) 1 = Some r1)
    by (rewrite Hframe; reflexivity).
  pose proof (harvest_iff_density_reached cfg_doubling 0 r0 20 H0 Hd0) as [_ B0].
  pose proof (harvest_iff_density_reached cfg_doubling 1 r1 40 H1 Hd1) as [A1 _].
  exists r0, r1. repeat split; try assumption.
  - intros [h Hh]. congruence.
  - apply A1. now exists 1.
Defined.

(** X17.  On a day without a harvest the used area stays as it was,
    the biomass is the biomass of the day before times the multiplier,
    and the density recorded is that biomass over the used area. *)
Theorem growth_day_records (cfg : Config) (i : nat) (ri rj : Row)
  (s u s' u' a v : R) :
  nth_error (fst (seaweed_growth_frame cfg)) i = Some ri ->
  nth_error (fst (seaweed_growth_frame cfg)) (S i) = Some rj ->
  ri col_current_seaweed = Some s ->
  ri col_current_area_used = Some u ->
  rj col_harvest_intervall = None ->
  rj col_current_seaweed = Some s' ->
  rj col_current_area_used = Some u' ->
  rj col_actual_growth_rate_multiplicator = Some a ->
  rj col_current_density = Some v ->
  s' = s * a /\ u' = u /\ u' <> 0 /\ v = s' / u'.
Proof.
  intros Hri Hrj Hs Hu Hnone Hs' Hu' Ha Hv.
  destruct (frame_row_finished cfg i ri col_current_seaweed s
              ltac:(tauto) Hri Hs) as (si & st & _ & Hdi & Hst).
  pose proof (day_body_complete cfg i si ri st Hdi) as (_ & Eu & Es & _).
  destruct (frame_row_finished cfg (S i) rj col_current_seaweed s'
              ltac:(tauto) Hrj Hs') as (st0 & st' & Hst0 & Hdj & _).
  assert (st0 = st) by congruence. subst st0.
  pose proof (day_body_complete cfg (S i) st rj st' Hdj) as (_ & Eu' & Es' & _).
  destruct (day_body_growth cfg (S i) st rj st' Hdj Hnone)
    as (agr & Hagr & _ & Hgrow).
  pose proof (day_body_shape cfg (S i) st rj st' Hdj) as (_ & _ & Hno & _).
  destruct (Hno Hnone) as (_ & _ & _ & _ & _ & _ & Hused).
  destruct (day_body_density cfg (S i) st rj (Ok st') v Hdj Hv)
    as (agr' & Hagr' & Hne & Hval & _).
  assert (agr = a) by congruence. assert (agr' = a) by congruence.
  assert (s = current_seaweed st) by congruence.
  assert (u = current_area_used st) by congruence.
  assert (s' = current_seaweed st') by congruence.
  assert (u' = current_area_used st') by congruence.
  subst. rewrite Hgrow, Hused. auto.
Qed.

Lemma growth_day_records_witness :
  exists r1 r2,
    nth_error (fst (seaweed_growth_frame cfg_doubling)) 1 = Some r1 /\
    nth_error (fst (seaweed_growth_frame cfg_doubling)) 2 = Some r2 /\
    r1 col_current_seaweed = Some 12 /\
    r2 col_harvest_intervall = None /\
    r2 col_current_density = Some 24 /\
    exists s' u', s' = 12 * 2 /\ u' = 1 /\ u' <> 0 /\ 24 = s' / u'.
Proof.
  destruct doubling_run
    as (r0 & r1 & r2 & r3 & r4 & Hframe & Hrun & _
        & (_ & _ & _ & _ & _ & _ & _ & Hu1 & Hs1 & _)
        & (Hn2 & Ha2 & Hd2) & _).
  assert (H1 : nth_error (fst (seaweed_growth_frame cfg_doubling)) 1 = Some r1)
    by (rewrite Hframe; reflexivity).
  assert (H2 : nth_error (fst (seaweed_growth_frame cfg_doubling)) 2 = Some r2)
    by (rewrite Hframe; reflexivity).
  assert (Hdf : nth_error [r0; r1; r2; r3; r4] 2 = Some r2) by reflexivity.
  destruct (returned_frame_row cfg_doubling _ 2 r2 Hrun Hdf)
    as (st & st' & _ & Hday & _).
  pose proof (day_body_complete cfg_doubling 2 st r2 st' Hday)
    as (_ & Hu2 & Hs2 & _).
  exists r1, r2. repeat split; try assumption.
  exists (current_seaweed st'), (current_area_used st').
  exact (growth_day_records cfg_doubling 1 r1 r2 12 1 _ _ 2 24
           H1 H2 Hs1 Hu1 Hn2 Hs2 Hu2 Ha2 Hd2).
Defined.

(** ** The pure functions *)

Section Logistic.

Variables max_L k x0 off : R.
Hypothesis HL : 0 < max_L.
Hypothesis Hk : 0 < k.

Lemma logistic_curve_bounds (x : R) :
  off < logistic_curve x max_L k x0 off < max_L + off.
Proof.
  unfold logistic_curve.
  pose proof (exp_pos (- k * (x - x0))) as He.
  set (e := exp (- k * (x - x0))) in *.
  assert (H0 : 0 < max_L / (1 + e)).
  { apply Rdiv_lt_0_compat; lra. }
  assert (H1 : max_L / (1 + e) < max_L).
  { apply Rmult_lt_reg_r with (1 + e); [lra |].
    replace (max_L / (1 + e) * (1 + e)) with max_L by (field; lra). nra. }
  lra.
Qed.

Lemma logistic_curve_increasing (x y : R) :
  x < y -> logistic_curve x max_L k x0 off < logistic_curve y max_L k x0 off.
Proof.
  intros Hxy. unfold logistic_curve.
  assert (Hexp : exp (- k * (y - x0)) < exp (- k * (x - x0))).
  { apply exp_increasing. nra. }
  pose proof (exp_pos (- k * (y - x0))) as Hy.
  set (ex := exp (- k * (x - x0))) in *.
  set (ey := exp (- k * (y - x0))) in *.
  assert (H : max_L / (1 + ex) < max_L / (1 + ey)).
  { unfold Rdiv. apply Rmult_lt_compat_l; [exact HL |].
    apply Rinv_lt_contravar; [nra | lra]. }
  lra.
Qed.

Lemma logistic_curve_midpoint :
  logistic_curve x0 max_L k x0 off = max_L / 2 + off.
Proof.
  unfold logistic_curve.
  replace (- k * (x0 - x0)) with 0 by ring. rewrite exp_0.
  replace (1 + 1) with 2 by ring. reflexivity.
Qed.

End Logistic.

(** X18.  For a positive ceiling [max_L] and a positive rate [k] the
    logistic curve increases strictly, stays strictly between [off]
    and [max_L + off], and passes through [max_L / 2 + off] at the
    midpoint [x0]. *)
Theorem logistic_curve_shape (max_L k x0 off : R) :
  0 < max_L -> 0 < k ->
  (forall x, off < logistic_curve x max_L k x0 off < max_L + off) /\
  (forall x y, x < y ->
     logistic_curve x max_L k x0 off < logistic_curve y max_L k x0 off) /\
  logistic_curve x0 max_L k x0 off = max_L / 2 + off.
Proof.
  intros HL Hk. split; [| split].
  - intros x. now apply logistic_curve_bounds.
  - intros x y. now apply logistic_curve_increasing.
  - apply logistic_curve_midpoint.
Qed.

Lemma logistic_curve_shape_witness :
  (forall x, 0 < logistic_curve x 10 1 5 0 < 10 + 0) /\
  (forall x y, x < y -> logistic_curve x 10 1 5 0 < logistic_curve y 10 1 5 0) /\
  logistic_curve 5 10 1 5 0 = 10 / 2 + 0.
Proof.
  apply (logistic_curve_shape 10 1 5 0); lra.
Defined.

(** X19.  With the exponential taken exactly, the area that can be
    built per day never decreases with the day; from day 0 on it is
    more than 1 km2 and less than 4115.1 km2. *)
Theorem seaweed_farm_area_per_day_shape :
  (forall x y, x <= y ->
     seaweed_farm_area_per_day x <= seaweed_farm_area_per_day y) /\
  (forall day, 0 <= day ->
     1 < seaweed_farm_area_per_day day < 4115.1).
Proof.
  split.
  - intros x y Hxy. destruct (Req_dec x y) as [-> | Hne]; [lra |].
    left. unfold seaweed_farm_area_per_day.
    apply logistic_curve_increasing; lra.
  - intros day Hday. split; [now apply seaweed_farm_area_per_day_gt_1 |].
    unfold seaweed_farm_area_per_day.
    pose proof (logistic_curve_bounds 4.15610385e03 2.83799528e-02
                  1.57630971e02 (-4.10270637e01) ltac:(lra) day) as [_ H].
    cbv zeta. lra.
Qed.

Lemma seaweed_farm_area_per_day_shape_witness :
  seaweed_farm_area_per_day 0 <= seaweed_farm_area_per_day 1 /\
  1 < seaweed_farm_area_per_day 0 < 4115.1.
Proof.
  destruct seaweed_farm_area_per_day_shape as [Hinc Hbound].
  split; [apply Hinc; lra | apply Hbound; lra].
Defined.

(** X20.  Self-shading never increases with the density, over the
    whole domain, the flat piece below 0.4 kg/m2 included; the two
    pieces agree at the threshold, where the factor is 1; and up to
    the density of 3.6 kg/m2 the factor is at least 1/9. *)
Theorem self_shading_nonincreasing :
  (forall d1 d2 v1 v2,
     d1 <= d2 ->
     self_shading d1 = Ok v1 -> self_shading d2 = Ok v2 ->
     0 <= v2 /\ v2 <= v1 /\ v1 <= 1) /\
  self_shading 0.4 = Ok 1 /\
  (forall d v, d < 3.6 -> self_shading d = Ok v -> / 9 <= v).
Proof.
  split; [| split].
  - intros d1 d2 v1 v2 Hd H1 H2.
    pose proof (self_shading_range d1 v1 H1) as (_ & _ & Hle1).
    pose proof (self_shading_range d2 v2 H2) as (_ & Hpos2 & _).
    pose proof (self_shading_monotone d1 d2 v1 v2 Hd H1 H2). auto.
  - rewrite self_shading_high by lra.
    replace (- 0.513 * (0.4 - 0.4)) with 0 by lra.
    rewrite math_exp_exact; [now rewrite exp_0 |].
    rewrite exp_0. pose proof underflow_bound_small. lra.
  - intros d v Hd Hv. exact (self_shading_lower d v Hd Hv).
Qed.

Lemma self_shading_nonincreasing_witness :
  exists v2,
    self_shading 0.2 = Ok 1 /\ self_shading 3 = Ok v2 /\
    (0 <= v2 /\ v2 <= 1 /\ 1 <= 1) /\ / 9 <= v2.
Proof.
  destruct self_shading_nonincreasing as (Hmono & _ & Hlow).
  assert (H1 : self_shading 0.2 = Ok 1) by (apply self_shading_low; lra).
  assert (H2 : self_shading 3 = Ok (math_exp (-0.513 * (3 - 0.4))))
    by (apply self_shading_high; lra).
  exists (math_exp (-0.513 * (3 - 0.4))).
  split; [exact H1 |]. split; [exact H2 |]. split.
  - apply (Hmono 0.2 3); [lra | exact H1 | exact H2].
  - apply (Hlow 3); [lra | exact H2].
Defined.
